(** * Wishlist backend: authorization, invite/join and aggregate consistency

    A shallow embedding of the Express/Mongoose route handlers of the
    wishlist backend (routes/wishlists.js, routes/products.js, the image
    deletion of routes/upload.js), of the two schema methods of
    models/Wishlist.js and of [extractPublicId] of config/cloudinary.js,
    followed by the properties the specification states about them.

    Conventions of the embedding.
    - An [ObjectId] is the 96-bit value of a MongoDB identifier.  The
      handlers only ever compare identifiers through [toString()],
      which is injective, so the comparison is equality on the value.
    - A JavaScript string is the sequence of its UTF-16 code units:
      [trim], [length] and the regular expression of [extractPublicId]
      work on code units.  The messages of the responses are constants
      of the source and are kept as plain strings.
    - A JavaScript [Number] is an IEEE 754 binary64 value: prices and
      totals are primitive floats, added as the code adds them, from
      left to right.
    - A collection is a finite map from [_id] to document.  The
      database is threaded through every handler explicitly: a handler
      maps the database before the request to the database after it
      and the HTTP response.
    - [Math.random], [Date.now] and the driver's fresh [_id] are inputs
      of the handler that uses them.
    - Every handler body sits in [try { ... } catch { res.status(500) }]:
      a thrown exception (a [TypeError] on a [null] reference, a
      Mongoose cast or validation error, a duplicate-key error of a
      unique index) is the response 500 with the database as it was
      when the exception was raised.
    - [doc.save()] of a document that was loaded from its collection is
      the write of the document.  The validation that precedes the
      write is modelled for what the handler puts into the document (a
      new comment, a new invite code); the stored documents are taken
      to pass their schema validators, so that it succeeds on the rest
      and a recomputed total is a number.
    - Of the product schema the paths that carry authorization or
      aggregate state are embedded (name, price, wishlist, addedBy,
      comments, reactions); the remaining ones are plain data that no
      handler inspects.  Sub-document [_id]s are not represented.
    - Of a request body the keys [title], [description], [name] and
      [text] hold a string when they are present, [tags] a list of
      strings, [price] a number, [wishlistId] an identifier and [emoji]
      a string; [isPublic] holds any JSON value.  The elements of a
      [comments] or [reactions] list in the body of an update carry
      their user and their date.
    - The user collection is the set of registered identifiers; no
      route of the API removes a user. *)

From stdpp Require Import gmap strings list fin_maps.
From Stdlib Require Import Ascii String PrimFloat.

Local Open Scope string_scope.
Local Open Scope list_scope.

(** ** JavaScript values *)

(** A string: its UTF-16 code units. *)
Definition CodeUnit := N.
Definition JsString := list CodeUnit.

(** The JavaScript string of an ASCII literal. *)
Definition js (s : string) : JsString := N_of_ascii <$> list_ascii_of_string s.

(** A JSON value of a request body, as far as JavaScript truthiness and
    Mongoose's casts tell values apart; [JCompound] is an array or an
    object. *)
Inductive Json :=
  | JNull
  | JBool (b : bool)
  | JNumber (x : float)
  | JString (s : JsString)
  | JCompound.

(** JavaScript truthiness of a string. *)
Definition truthy (s : JsString) : bool :=
  match s with [] => false | _ => true end.

(** JavaScript truthiness of a JSON value: [null], [false], [0], [-0],
    [NaN] and the empty string are falsy. *)
Definition truthyJson (v : Json) : bool :=
  match v with
  | JNull => false
  | JBool b => b
  | JNumber x => negb (PrimFloat.eqb x 0 || PrimFloat.is_nan x)
  | JString s => truthy s
  | JCompound => true
  end.

(** Mongoose's cast to [Boolean]: [true], ['true'], [1], ['1'] and
    ['yes'] become [true]; [false], ['false'], [0], ['0'] and ['no']
    become [false]; [null] stays [null] ([Some None]); every other
    value is a [CastError] ([None]).  Of the numbers the truthy ones
    are compared with [1] and the falsy ones, among them [NaN], with
    [0]. *)
Definition castBoolean (v : Json) : option (option bool) :=
  match v with
  | JNull => Some None
  | JBool b => Some (Some b)
  | JNumber x =>
      if truthyJson (JNumber x)
      then if PrimFloat.eqb x 1 then Some (Some true) else None
      else if PrimFloat.eqb x 0 then Some (Some false) else None
  | JString s =>
      if bool_decide (s ∈ [js "true"; js "1"; js "yes"]) then Some (Some true)
      else if bool_decide (s ∈ [js "false"; js "0"; js "no"]) then Some (Some false)
      else None
  | JCompound => None
  end.

(** ** Data model (models/Wishlist.js, models/Product.js) *)

Definition ObjectId := N.
Definition Time := N.

(** [role: { type: String, enum: ['viewer', 'editor', 'admin'] }] *)
Inductive Role := viewer | editor | admin.

Global Instance Role_eq_dec : EqDecision Role.
Proof. solve_decision. Defined.

(** [emoji: { type: String, enum: [ ...8 symbols... ] }], in schema order. *)
Inductive Emoji :=
  | heart | thumbsUp | thumbsDown | heartEyes | thinking | moneyBag | fire | star.

Global Instance Emoji_eq_dec : EqDecision Emoji.
Proof. solve_decision. Defined.

Record Collaborator := mkCollaborator {
  collab_user : ObjectId;
  collab_role : Role;
  joinedAt : Time
}.

Record Comment := mkComment {
  comment_user : ObjectId;
  text : JsString;
  comment_createdAt : Time
}.

Record Reaction := mkReaction {
  reaction_user : ObjectId;
  emoji : Emoji;
  reaction_createdAt : Time
}.

(** [isPublic] is the stored value of the [Boolean] path: [true],
    [false] or [null] ([None]). *)
Record Wishlist := mkWishlist {
  title : JsString;
  description : option JsString;
  owner : ObjectId;
  collaborators : list Collaborator;
  products : list ObjectId;
  isPublic : option bool;
  inviteCode : option JsString;
  tags : list JsString;
  totalValue : float
}.

Record Product := mkProduct {
  name : JsString;
  price : option float;
  wishlist : ObjectId;
  addedBy : ObjectId;
  comments : list Comment;
  reactions : list Reaction
}.

(** The three collections. *)
Record Db := mkDb {
  Users : gset ObjectId;
  Wishlists : gmap ObjectId Wishlist;
  Products : gmap ObjectId Product
}.

(** ** HTTP responses *)

Inductive Payload :=
  | Message (m : string)
  | WishlistDoc (w : Wishlist)
  | WishlistDocs (ws : list Wishlist)
  | JoinedDoc (m : string) (w : Wishlist)
  | InviteCodeDoc (c : JsString)
  | ProductDoc (p : Product)
  | ProductDocs (ps : list Product)
  | CommentDoc (c : Comment)
  | ReactionDoc (r : Reaction).

Record Response := mkResponse { status : nat; payload : Payload }.

Definition reply (db : Db) (code : nat) (p : Payload) : Db * Response :=
  (db, mkResponse code p).

Definition serverError (db : Db) : Db * Response :=
  reply db 500 (Message "Server error").

(** ** Schema setters and validators *)

(** The code units that [String.prototype.trim] strips: the WhiteSpace
    and LineTerminator code points of ECMAScript, that is TAB, LF, VT,
    FF, CR, SP, U+00A0, U+1680, U+2000 to U+200A, U+2028, U+2029,
    U+202F, U+205F, U+3000 and U+FEFF. *)
Definition isWhiteSpace (c : CodeUnit) : bool :=
  bool_decide (c ∈ [9; 10; 11; 12; 13; 32; 160; 5760; 8232; 8233; 8239; 8287;
                    12288; 65279]%N)
  || (N.leb 8192 c && N.leb c 8202).

Fixpoint trimStart (s : JsString) : JsString :=
  match s with
  | [] => []
  | c :: s' => if isWhiteSpace c then trimStart s' else s
  end.

Fixpoint trimEnd (s : JsString) : JsString :=
  match s with
  | [] => []
  | c :: s' =>
      match trimEnd s' with
      | [] => if isWhiteSpace c then [] else [c]
      | t => c :: t
      end
  end.

(** [String.prototype.trim] *)
Definition trim (s : JsString) : JsString := trimEnd (trimStart s).

(** A [String] path with [trim: true] and [maxlength: n]: the setter
    trims, the validator bounds the [length] of what was set. *)
Definition castString (n : nat) (raw : JsString) : option JsString :=
  let t := trim raw in
  if Nat.leb (List.length t) n then Some t else None.

(** The same path with [required: true]. *)
Definition castRequired (n : nat) (raw : option JsString) : option JsString :=
  match raw with
  | None => None
  | Some s =>
      match castString n s with
      | Some t => if truthy t then Some t else None
      | None => None
      end
  end.

(** An optional [String] path: absent stays absent. *)
Definition castOptional (n : nat) (raw : option JsString)
  : option (option JsString) :=
  match raw with
  | None => Some None
  | Some s => match castString n s with Some t => Some (Some t) | None => None end
  end.

(** [price: { type: Number, min: 0 }]: the cast refuses [NaN], the
    validator wants [value >= 0]; an absent price passes. *)
Definition validPrice (p : option float) : bool :=
  match p with None => true | Some x => PrimFloat.leb 0 x end.

(** ** Schema methods of models/Wishlist.js *)

(** [generateInviteCode]: [rnd] is the value of
    [Math.random().toString(36).substring(2, 15) +
     Math.random().toString(36).substring(2, 15)].
    The method stores the code in the document and returns it. *)
Definition generateInviteCode (rnd : JsString) (w : Wishlist) : Wishlist * JsString :=
  (mkWishlist (title w) (description w) (owner w) (collaborators w) (products w)
     (isPublic w) (Some rnd) (tags w) (totalValue w), rnd).

(** [this.populate('products')]: every reference is replaced by the
    stored document; references to missing documents are dropped. *)
Definition populateProducts (ps : gmap ObjectId Product) (refs : list ObjectId)
  : list Product :=
  omap (λ i, ps !! i) refs.

(** [product.price || 0]: a missing price, [0], [-0] and [NaN] are
    falsy. *)
Definition priceOrZero (p : Product) : float :=
  match price p with
  | Some x => if PrimFloat.eqb x 0 || PrimFloat.is_nan x then 0%float else x
  | None => 0%float
  end.

(** [calculateTotalValue]: populate, then
    [this.products.reduce((total, product) => total + (product.price || 0), 0)]. *)
Definition calculateTotalValue (ps : gmap ObjectId Product) (w : Wishlist) : Wishlist :=
  let total :=
    fold_left (λ total product, PrimFloat.add total (priceOrZero product))
      (populateProducts ps (products w)) 0%float in
  mkWishlist (title w) (description w) (owner w) (collaborators w) (products w)
    (isPublic w) (inviteCode w) (tags w) total.

(** ** Collection primitives *)

(** [Wishlist.findOne({ inviteCode: c })] *)
Definition findOne (c : JsString) (ws : gmap ObjectId Wishlist)
  : option (ObjectId * Wishlist) :=
  snd <$> list_find (λ iw : ObjectId * Wishlist, inviteCode iw.2 = Some c)
            (map_to_list ws).

(** The unique sparse index on [inviteCode]: writing code [c] into the
    document [id] raises a duplicate-key error when another document
    already carries [c]. *)
Definition duplicateKey (c : JsString) (id : ObjectId) (ws : gmap ObjectId Wishlist)
  : bool :=
  bool_decide (is_Some (findOne c (delete id ws))).

Definition setWishlists (db : Db) (ws : gmap ObjectId Wishlist) : Db :=
  mkDb (Users db) ws (Products db).

Definition setProducts (db : Db) (ps : gmap ObjectId Product) : Db :=
  mkDb (Users db) (Wishlists db) ps.

(** [wishlist.save()] of a loaded document. *)
Definition saveWishlist (db : Db) (id : ObjectId) (w : Wishlist) : Db :=
  setWishlists db (<[id := w]> (Wishlists db)).

(** [product.save()] of a loaded document. *)
Definition saveProduct (db : Db) (id : ObjectId) (p : Product) : Db :=
  setProducts db (<[id := p]> (Products db)).

(** [.populate('owner', ...)] followed by [._id]: the identifier of the
    referenced user document, or a [TypeError] ([None]) when the
    reference does not resolve and the populated path is [null]. *)
Definition populatedId (db : Db) (ref : ObjectId) : option ObjectId :=
  if decide (ref ∈ Users db) then Some ref else None.

(** ** Authorization checks, as written in the handlers *)

(** [wishlist.owner.toString() === req.user._id.toString()] *)
Definition isOwner (w : Wishlist) (actor : ObjectId) : bool :=
  bool_decide (owner w = actor).

(** [collaborators.some(collab => collab.user.toString() === req.user._id.toString())] *)
Definition isAlreadyCollaborator (w : Wishlist) (actor : ObjectId) : bool :=
  existsb (λ collab, bool_decide (collab_user collab = actor)) (collaborators w).

(** [collaborators.some(collab => ... && roles.includes(collab.role))] *)
Definition hasRole (roles : list Role) (w : Wishlist) (actor : ObjectId) : bool :=
  existsb (λ collab, bool_decide (collab_user collab = actor)
                     && bool_decide (collab_role collab ∈ roles))
    (collaborators w).

Definition isAdmin (w : Wishlist) (actor : ObjectId) : bool :=
  existsb (λ collab, bool_decide (collab_user collab = actor)
                     && bool_decide (collab_role collab = admin))
    (collaborators w).

(** [wishlist.isPublic] where a condition is expected: the truthiness
    of the stored value. *)
Definition publicFlag (w : Wishlist) : bool := default false (isPublic w).

(** [hasAccess] of GET /wishlist/:wishlistId, POST /:id/comments and
    POST /:id/reactions. *)
Definition hasAccess (w : Wishlist) (actor : ObjectId) : bool :=
  isOwner w actor || isAlreadyCollaborator w actor || publicFlag w.

(** [collaborators.some(collab => collab.user._id.toString() === ...)]
    on populated collaborators. *)
Fixpoint somePopulated (db : Db) (actor : ObjectId) (cs : list Collaborator)
  : option bool :=
  match cs with
  | [] => Some false
  | collab :: cs' =>
      u ← populatedId db (collab_user collab);
      if bool_decide (u = actor) then Some true else somePopulated db actor cs'
  end.

(** [hasAccess] of GET /:id, evaluated left to right on the populated
    document. *)
Definition hasAccessPopulated (db : Db) (w : Wishlist) (actor : ObjectId)
  : option bool :=
  o ← populatedId db (owner w);
  if bool_decide (o = actor) then Some true
  else
    s ← somePopulated db actor (collaborators w);
    Some (s || publicFlag w).

(** [canAdd] of POST /api/products *)
Definition canAdd (w : Wishlist) (actor : ObjectId) : bool :=
  isOwner w actor || hasRole [editor; admin] w actor.

(** [canEdit] of PUT /api/products/:id *)
Definition canEdit (w : Wishlist) (p : Product) (actor : ObjectId) : bool :=
  isOwner w actor || bool_decide (addedBy p = actor)
  || hasRole [editor; admin] w actor.

(** [canDelete] of DELETE /api/products/:id *)
Definition canDelete (w : Wishlist) (p : Product) (actor : ObjectId) : bool :=
  isOwner w actor || bool_decide (addedBy p = actor) || hasRole [admin] w actor.

(** ** routes/wishlists.js *)

(** [const { title, description, isPublic, tags } = req.body]; an
    absent key is [None]. *)
Record WishlistBody := mkWishlistBody {
  body_title : option JsString;
  body_description : option JsString;
  body_isPublic : option Json;
  body_tags : option (list JsString)
}.

(** [isPublic] where a condition is expected: [undefined] is falsy. *)
Definition asksPublic (body : WishlistBody) : bool :=
  match body_isPublic body with
  | Some v => truthyJson v
  | None => false
  end.

(** [isPublic || false] *)
Definition isPublicOrFalse (body : WishlistBody) : Json :=
  match body_isPublic body with
  | Some v => if truthyJson v then v else JBool false
  | None => JBool false
  end.

(** The [updates] object of PUT /:id: the keys that were assigned. *)
Record WishlistUpdates := mkWishlistUpdates {
  upd_title : option JsString;
  upd_description : option JsString;
  upd_isPublic : option Json;
  upd_inviteCode : option JsString;
  upd_tags : option (list JsString)
}.

(** GET /api/wishlists: the documents matching
    [{ $or: [{ owner: actor }, { 'collaborators.user': actor }] }]. *)
Definition getWishlists (db : Db) (actor : ObjectId) : Db * Response :=
  reply db 200
    (WishlistDocs
       (map_to_list
          (filter (λ kw : ObjectId * Wishlist,
                     owner kw.2 = actor
                     ∨ actor ∈ collab_user <$> collaborators kw.2)
             (Wishlists db))).*2).

(** GET /api/wishlists/:id *)
Definition getWishlist (db : Db) (actor id : ObjectId) : Db * Response :=
  match Wishlists db !! id with
  | None => reply db 404 (Message "Wishlist not found")
  | Some w =>
      match hasAccessPopulated db w actor with
      | None => serverError db
      | Some false => reply db 403 (Message "Access denied")
      | Some true => reply db 200 (WishlistDoc w)
      end
  end.

(** POST /api/wishlists.  The document is built with
    [isPublic: isPublic || false], which Mongoose casts to [Boolean];
    the invite code is generated under [if (isPublic)], on the value of
    the body. *)
Definition createWishlist (db : Db) (actor newId : ObjectId) (rnd : JsString)
    (body : WishlistBody) : Db * Response :=
  match castRequired 100 (body_title body),
        castOptional 500 (body_description body),
        castBoolean (isPublicOrFalse body) with
  | Some t, Some d, Some flag =>
      let w := mkWishlist t d actor [] [] flag None
                 (trim <$> default [] (body_tags body)) 0%float in
      let w := if asksPublic body then (generateInviteCode rnd w).1 else w in
      if bool_decide (is_Some (Wishlists db !! newId)) then serverError db
      else if match inviteCode w with
              | Some c => duplicateKey c newId (Wishlists db)
              | None => false
              end then serverError db
      else reply (saveWishlist db newId w) 201 (WishlistDoc w)
  | _, _, _ => serverError db
  end.

(** [!wishlist.inviteCode] *)
Definition noInviteCode (w : Wishlist) : bool :=
  match inviteCode w with
  | None => true
  | Some c => negb (truthy c)
  end.

(** The update document is applied path by path: every value is cast
    to the type of its path, and [runValidators] runs the schema
    validators of the paths that are set. *)
Definition applyWishlistUpdates (u : WishlistUpdates) (w : Wishlist)
  : option Wishlist :=
  t ← match upd_title u with
      | None => Some (title w)
      | Some raw => castRequired 100 (Some raw)
      end;
  d ← match upd_description u with
      | None => Some (description w)
      | Some raw => Some <$> castString 500 raw
      end;
  flag ← match upd_isPublic u with
         | None => Some (isPublic w)
         | Some v => castBoolean v
         end;
  Some (mkWishlist t d (owner w) (collaborators w) (products w) flag
          (match upd_inviteCode u with Some c => Some c | None => inviteCode w end)
          (match upd_tags u with Some ts => trim <$> ts | None => tags w end)
          (totalValue w)).

(** [Wishlist.findByIdAndUpdate(id, updates, { new: true, runValidators: true })] *)
Definition Wishlist_findByIdAndUpdate (db : Db) (id : ObjectId)
    (u : WishlistUpdates) : option (Db * Wishlist) :=
  w ← Wishlists db !! id;
  w' ← applyWishlistUpdates u w;
  if match upd_inviteCode u with
     | Some c => duplicateKey c id (Wishlists db)
     | None => false
     end then None
  else Some (saveWishlist db id w', w').

(** PUT /api/wishlists/:id *)
Definition updateWishlist (db : Db) (actor id : ObjectId) (rnd : JsString)
    (body : WishlistBody) : Db * Response :=
  match Wishlists db !! id with
  | None => reply db 404 (Message "Wishlist not found")
  | Some w =>
      if negb (isOwner w actor) && negb (isAdmin w actor)
      then reply db 403 (Message "Access denied")
      else
        let updates := mkWishlistUpdates
          (match body_title body with
           | Some t => if truthy t then Some t else None
           | None => None
           end)
          (body_description body)
          (body_isPublic body)
          (if asksPublic body && noInviteCode w
           then Some (generateInviteCode rnd w).2
           else None)
          (body_tags body) in
        match Wishlist_findByIdAndUpdate db id updates with
        | None => serverError db
        | Some (db', updatedWishlist) => reply db' 200 (WishlistDoc updatedWishlist)
        end
  end.

(** [Product.deleteMany({ wishlist: id })] *)
Definition Product_deleteMany (id : ObjectId) (ps : gmap ObjectId Product)
  : gmap ObjectId Product :=
  filter (λ kp : ObjectId * Product, wishlist kp.2 ≠ id) ps.

(** DELETE /api/wishlists/:id *)
Definition deleteWishlist (db : Db) (actor id : ObjectId) : Db * Response :=
  match Wishlists db !! id with
  | None => reply db 404 (Message "Wishlist not found")
  | Some w =>
      if negb (isOwner w actor)
      then reply db 403 (Message "Only owner can delete wishlist")
      else
        let db1 := setProducts db (Product_deleteMany id (Products db)) in
        let db2 := setWishlists db1 (delete id (Wishlists db1)) in
        reply db2 200 (Message "Wishlist deleted successfully")
  end.

(** [wishlist.collaborators.push({ user, role: 'editor' })]; [joinedAt]
    takes its default [Date.now]. *)
Definition pushCollaborator (w : Wishlist) (actor : ObjectId) (now : Time)
  : Wishlist :=
  mkWishlist (title w) (description w) (owner w)
    (collaborators w ++ [mkCollaborator actor editor now])
    (products w) (isPublic w) (inviteCode w) (tags w) (totalValue w).

(** POST /api/wishlists/join/:inviteCode *)
Definition join (db : Db) (actor : ObjectId) (code : JsString) (now : Time)
  : Db * Response :=
  match findOne code (Wishlists db) with
  | None => reply db 404 (Message "Invalid invite code")
  | Some (id, w) =>
      if isAlreadyCollaborator w actor || isOwner w actor
      then reply db 400 (Message "You are already part of this wishlist")
      else
        let w' := pushCollaborator w actor now in
        reply (saveWishlist db id w') 200
          (JoinedDoc "Successfully joined wishlist" w')
  end.

(** POST /api/wishlists/:id/invite *)
Definition generateInvite (db : Db) (actor id : ObjectId) (rnd : JsString)
  : Db * Response :=
  match Wishlists db !! id with
  | None => reply db 404 (Message "Wishlist not found")
  | Some w =>
      if negb (isOwner w actor) && negb (isAdmin w actor)
      then reply db 403 (Message "Access denied")
      else
        let '(w', code) := generateInviteCode rnd w in
        if duplicateKey code id (Wishlists db) then serverError db
        else reply (saveWishlist db id w') 200 (InviteCodeDoc code)
  end.

(** ** routes/products.js *)

(** The body of POST /api/products, restricted to the embedded paths. *)
Record ProductBody := mkProductBody {
  body_name : option JsString;
  body_price : option float;
  body_wishlistId : option ObjectId
}.

(** The body of PUT /api/products/:id is handed to Mongoose as it
    arrives.  A key of that object is a schema path with its new value,
    or [$set] with an object of such fields, or any other key: another
    update operator ([$inc], [$unset], [$push], ...), a dotted path, a
    path that is not embedded.  What such a key does to the embedded
    paths of the stored document is MongoDB's business and is taken as
    given: [effect] maps the document to the updated one, or to [None]
    when the update is refused. *)
Inductive Assignment :=
  | SetName (v : JsString)
  | SetPrice (v : float)
  | SetWishlist (v : ObjectId)
  | SetAddedBy (v : ObjectId)
  | SetComments (v : list Comment)
  | SetReactions (v : list Reaction).

Inductive UpdateKey :=
  | Path (a : Assignment)
  | DollarSet (fields : list Assignment)
  | OtherKey (key : string) (effect : Product → option Product).

Definition pathOf (a : Assignment) : string :=
  match a with
  | SetName _ => "name"
  | SetPrice _ => "price"
  | SetWishlist _ => "wishlist"
  | SetAddedBy _ => "addedBy"
  | SetComments _ => "comments"
  | SetReactions _ => "reactions"
  end.

Definition keyOf (k : UpdateKey) : string :=
  match k with
  | Path a => pathOf a
  | DollarSet _ => "$set"
  | OtherKey key _ => key
  end.

(** [delete updates.key] *)
Definition deleteKey (key : string) (updates : list UpdateKey) : list UpdateKey :=
  filter (λ k, keyOf k ≠ key) updates.

(** The keys of the update document that are schema paths. *)
Definition topLevel (updates : list UpdateKey) : list Assignment :=
  omap (λ k, match k with Path a => Some a | _ => None end) updates.

(** The fields of [$set]. *)
Definition underSet (updates : list UpdateKey) : list Assignment :=
  mjoin (omap (λ k, match k with DollarSet fs => Some fs | _ => None end) updates).

(** Mongoose's treatment of an update document: every key that is not
    an operator is assigned into the [$set] object, where it replaces
    the field of the same path that [$set] may hold.  What is cast and
    validated is the merged object. *)
Definition castUpdate (updates : list UpdateKey) : list Assignment :=
  filter (λ a, pathOf a ∉ pathOf <$> topLevel updates) (underSet updates)
  ++ topLevel updates.

(** The cast of one element of a [comments] array: the setter trims the
    text, the validators want it present and of at most 500 code
    units. *)
Definition castComment (c : Comment) : option Comment :=
  t ← castRequired 500 (Some (text c));
  Some (mkComment (comment_user c) t (comment_createdAt c)).

(** One field of [$set], cast, with the validators of its path. *)
Definition assign (p : Product) (a : Assignment) : option Product :=
  match a with
  | SetName v =>
      t ← castRequired 200 (Some v);
      Some (mkProduct t (price p) (wishlist p) (addedBy p) (comments p) (reactions p))
  | SetPrice v =>
      if validPrice (Some v)
      then Some (mkProduct (name p) (Some v) (wishlist p) (addedBy p)
                   (comments p) (reactions p))
      else None
  | SetWishlist v =>
      Some (mkProduct (name p) (price p) v (addedBy p) (comments p) (reactions p))
  | SetAddedBy v =>
      Some (mkProduct (name p) (price p) (wishlist p) v (comments p) (reactions p))
  | SetComments v =>
      cs ← mapM castComment v;
      Some (mkProduct (name p) (price p) (wishlist p) (addedBy p) cs (reactions p))
  | SetReactions v =>
      Some (mkProduct (name p) (price p) (wishlist p) (addedBy p) (comments p) v)
  end.

Fixpoint assignAll (p : Product) (fields : list Assignment) : option Product :=
  match fields with
  | [] => Some p
  | a :: fields' => p' ← assign p a; assignAll p' fields'
  end.

(** The keys that are neither schema paths nor [$set], each with what
    it does to the document. *)
Fixpoint otherKeys (p : Product) (updates : list UpdateKey) : option Product :=
  match updates with
  | [] => Some p
  | OtherKey _ effect :: updates' => p' ← effect p; otherKeys p' updates'
  | _ :: updates' => otherKeys p updates'
  end.

(** The update document applied to a stored product: all of it, or
    nothing when a cast, a validator or the database refuses. *)
Definition applyUpdate (p : Product) (updates : list UpdateKey) : option Product :=
  p' ← assignAll p (castUpdate updates);
  otherKeys p' updates.

(** [Product.findByIdAndUpdate(id, updates, { new: true, runValidators: true })] *)
Definition Product_findByIdAndUpdate (db : Db) (id : ObjectId)
    (updates : list UpdateKey) : option (Db * Product) :=
  p ← Products db !! id;
  p' ← applyUpdate p updates;
  Some (saveProduct db id p', p').

(** [Product.find({ wishlist: wishlistId })] *)
Definition Product_find (wishlistId : ObjectId) (ps : gmap ObjectId Product)
  : list Product :=
  (map_to_list (filter (λ kp : ObjectId * Product, wishlist kp.2 = wishlistId) ps)).*2.

(** GET /api/products/wishlist/:wishlistId *)
Definition getProducts (db : Db) (actor wishlistId : ObjectId) : Db * Response :=
  match Wishlists db !! wishlistId with
  | None => reply db 404 (Message "Wishlist not found")
  | Some w =>
      if negb (hasAccess w actor) then reply db 403 (Message "Access denied")
      else reply db 200 (ProductDocs (Product_find wishlistId (Products db)))
  end.

(** [wishlist.products.push(product._id)] *)
Definition pushProduct (w : Wishlist) (id : ObjectId) : Wishlist :=
  mkWishlist (title w) (description w) (owner w) (collaborators w)
    (products w ++ [id]) (isPublic w) (inviteCode w) (tags w) (totalValue w).

(** [wishlist.products.pull(product._id)] *)
Definition pullProduct (w : Wishlist) (id : ObjectId) : Wishlist :=
  mkWishlist (title w) (description w) (owner w) (collaborators w)
    (filter (λ i, i ≠ id) (products w)) (isPublic w) (inviteCode w) (tags w)
    (totalValue w).

(** POST /api/products *)
Definition addProduct (db : Db) (actor newId : ObjectId) (body : ProductBody)
  : Db * Response :=
  match body_wishlistId body ≫= λ wishlistId,
        pair wishlistId <$> Wishlists db !! wishlistId with
  | None => reply db 404 (Message "Wishlist not found")
  | Some (wishlistId, w) =>
      if negb (canAdd w actor) then reply db 403 (Message "Access denied")
      else
        match castRequired 200 (body_name body) with
        | Some n =>
            if negb (validPrice (body_price body)) then serverError db
            else if bool_decide (is_Some (Products db !! newId)) then serverError db
            else
              let product := mkProduct n (body_price body) wishlistId actor [] [] in
              let db1 := saveProduct db newId product in
              let w1 := pushProduct w newId in
              let w2 := calculateTotalValue (Products db1) w1 in
              reply (saveWishlist db1 wishlistId w2) 201 (ProductDoc product)
        | None => serverError db
        end
  end.

(** PUT /api/products/:id *)
Definition updateProduct (db : Db) (actor id : ObjectId) (body : list UpdateKey)
  : Db * Response :=
  match Products db !! id with
  | None => reply db 404 (Message "Product not found")
  | Some product =>
      match Wishlists db !! wishlist product with
      | None => serverError db
      | Some w =>
          if negb (canEdit w product actor)
          then reply db 403 (Message "Access denied")
          else
            let updates := deleteKey "addedBy" (deleteKey "wishlist" body) in
            match Product_findByIdAndUpdate db id updates with
            | None => serverError db
            | Some (db1, updatedProduct) =>
                let w' := calculateTotalValue (Products db1) w in
                reply (saveWishlist db1 (wishlist product) w') 200
                  (ProductDoc updatedProduct)
            end
      end
  end.

(** DELETE /api/products/:id.  The Cloudinary clean-up between the
    check and the removal touches no collection and its failure is
    caught inside the handler. *)
Definition deleteProduct (db : Db) (actor id : ObjectId) : Db * Response :=
  match Products db !! id with
  | None => reply db 404 (Message "Product not found")
  | Some product =>
      match Wishlists db !! wishlist product with
      | None => serverError db
      | Some w =>
          if negb (canDelete w product actor)
          then reply db 403 (Message "Access denied")
          else
            let w1 := pullProduct w id in
            let w2 := calculateTotalValue (Products db) w1 in
            let db1 := saveWishlist db (wishlist product) w2 in
            let db2 := setProducts db1 (delete id (Products db1)) in
            reply db2 200 (Message "Product deleted successfully")
      end
  end.

Definition setComments (p : Product) (cs : list Comment) : Product :=
  mkProduct (name p) (price p) (wishlist p) (addedBy p) cs (reactions p).

Definition setReactions (p : Product) (rs : list Reaction) : Product :=
  mkProduct (name p) (price p) (wishlist p) (addedBy p) (comments p) rs.

(** POST /api/products/:id/comments; [txt] is [req.body.text]. *)
Definition addComment (db : Db) (actor id : ObjectId) (txt : option JsString)
    (now : Time) : Db * Response :=
  match Products db !! id with
  | None => reply db 404 (Message "Product not found")
  | Some product =>
      match Wishlists db !! wishlist product with
      | None => serverError db
      | Some w =>
          if negb (hasAccess w actor) then reply db 403 (Message "Access denied")
          else
            match castRequired 500 txt with
            | None => serverError db
            | Some t =>
                let comment := mkComment actor t now in
                let product' := setComments product (comments product ++ [comment]) in
                reply (saveProduct db id product') 201 (CommentDoc comment)
            end
      end
  end.

(** [product.reactions.filter(reaction => reaction.user.toString() !== actor)] *)
Definition withoutReactionsOf (actor : ObjectId) (rs : list Reaction)
  : list Reaction :=
  filter (λ reaction, reaction_user reaction ≠ actor) rs.

(** POST /api/products/:id/reactions; [e] is [req.body.emoji], [None]
    when it is absent or not a member of the schema's enum. *)
Definition addReaction (db : Db) (actor id : ObjectId) (e : option Emoji)
    (now : Time) : Db * Response :=
  match Products db !! id with
  | None => reply db 404 (Message "Product not found")
  | Some product =>
      match Wishlists db !! wishlist product with
      | None => serverError db
      | Some w =>
          if negb (hasAccess w actor) then reply db 403 (Message "Access denied")
          else
            match e with
            | None => serverError db
            | Some e =>
                let reaction := mkReaction actor e now in
                let product' := setReactions product
                  (withoutReactionsOf actor (reactions product) ++ [reaction]) in
                reply (saveProduct db id product') 201 (ReactionDoc reaction)
            end
      end
  end.

(** DELETE /api/products/:id/reactions *)
Definition removeReaction (db : Db) (actor id : ObjectId) : Db * Response :=
  match Products db !! id with
  | None => reply db 404 (Message "Product not found")
  | Some product =>
      let product' := setReactions product
        (withoutReactionsOf actor (reactions product)) in
      reply (saveProduct db id product') 200 (Message "Reaction removed successfully")
  end.

(** ** The API as a transition system *)

(** A request of an authenticated user, with the values the handler
    draws from its environment. *)
Inductive Request :=
  | GetWishlists
  | GetWishlist (id : ObjectId)
  | CreateWishlist (newId : ObjectId) (rnd : JsString) (body : WishlistBody)
  | UpdateWishlist (id : ObjectId) (rnd : JsString) (body : WishlistBody)
  | DeleteWishlist (id : ObjectId)
  | Join (code : JsString) (now : Time)
  | GenerateInvite (id : ObjectId) (rnd : JsString)
  | GetProducts (wishlistId : ObjectId)
  | AddProduct (newId : ObjectId) (body : ProductBody)
  | UpdateProduct (id : ObjectId) (body : list UpdateKey)
  | DeleteProduct (id : ObjectId)
  | AddComment (id : ObjectId) (txt : option JsString) (now : Time)
  | AddReaction (id : ObjectId) (e : option Emoji) (now : Time)
  | RemoveReaction (id : ObjectId).

(** The router: [actor] is [req.user._id], set by the [auth] middleware. *)
Definition handle (db : Db) (actor : ObjectId) (r : Request) : Db * Response :=
  match r with
  | GetWishlists => getWishlists db actor
  | GetWishlist id => getWishlist db actor id
  | CreateWishlist newId rnd body => createWishlist db actor newId rnd body
  | UpdateWishlist id rnd body => updateWishlist db actor id rnd body
  | DeleteWishlist id => deleteWishlist db actor id
  | Join code now => join db actor code now
  | GenerateInvite id rnd => generateInvite db actor id rnd
  | GetProducts wishlistId => getProducts db actor wishlistId
  | AddProduct newId body => addProduct db actor newId body
  | UpdateProduct id body => updateProduct db actor id body
  | DeleteProduct id => deleteProduct db actor id
  | AddComment id txt now => addComment db actor id txt now
  | AddReaction id e now => addReaction db actor id e now
  | RemoveReaction id => removeReaction db actor id
  end.

(** The database after a sequence of requests, oldest first. *)
Definition run (db : Db) (trace : list (ObjectId * Request)) : Db :=
  fold_left (λ db ar, (handle db ar.1 ar.2).1) trace db.

(** A database with registered users and no document yet. *)
Definition initial (users : gset ObjectId) : Db := mkDb users ∅ ∅.

(** ** Vocabulary of the specification *)

(** The actor appears in the collaborator list, whatever the role. *)
Definition isCollaborator (w : Wishlist) (actor : ObjectId) : Prop :=
  ∃ c, c ∈ collaborators w ∧ collab_user c = actor.

(** The actor appears in the collaborator list with role [r]. *)
Definition collaboratesAs (r : Role) (w : Wishlist) (actor : ObjectId) : Prop :=
  ∃ c, c ∈ collaborators w ∧ collab_user c = actor ∧ collab_role c = r.

(** [canView] of the specification. *)
Definition canView (w : Wishlist) (actor : ObjectId) : Prop :=
  owner w = actor ∨ isCollaborator w actor ∨ isPublic w = Some true.

(** [canDeleteProduct] of the specification. *)
Definition canDeleteProduct (w : Wishlist) (p : Product) (actor : ObjectId) : Prop :=
  owner w = actor ∨ addedBy p = actor ∨ collaboratesAs admin w actor.

(** Data-model invariant: a user occurs at most once among the
    collaborators of a wishlist. *)
Definition collaboratorsUnique (w : Wishlist) : Prop :=
  NoDup (collab_user <$> collaborators w).

(** Referential integrity of the user references of a wishlist: what
    [populate] needs in order to return documents rather than [null]. *)
Definition usersResolve (db : Db) (w : Wishlist) : Prop :=
  owner w ∈ Users db ∧ ∀ c, c ∈ collaborators w → collab_user c ∈ Users db.

(** Data-model invariant, enforced by the unique index: no two
    wishlists carry the same invite code. *)
Definition uniqueInviteCodes (ws : gmap ObjectId Wishlist) : Prop :=
  ∀ i j wi wj c,
    ws !! i = Some wi → ws !! j = Some wj →
    inviteCode wi = Some c → inviteCode wj = Some c → i = j.

(** The sum of the prices of the products a wishlist references, taken
    in the order of the references, a product without price counting 0
    and a reference without product counting nothing. *)
Definition referencedTotal (ps : gmap ObjectId Product) (w : Wishlist) : float :=
  fold_left (λ total i, match ps !! i with
                        | Some p => PrimFloat.add total (priceOrZero p)
                        | None => total
                        end)
    (products w) 0%float.

(** ** Sample databases *)

(** A private wishlist of user 1 with user 2 as a viewer. *)
Definition privateList : Wishlist :=
  mkWishlist (js "Gifts") None 1%N [mkCollaborator 2%N viewer 7%N] []
    (Some false) None [] 0%float.

Definition privateDb : Db :=
  mkDb {[1%N; 2%N; 3%N]} {[10%N := privateList]} ∅.

(** A wishlist of user 1 with an editor (2) and an administrator (3),
    holding two products that the owner added; the second one carries
    two comments. *)
Definition sharedList : Wishlist :=
  mkWishlist (js "Camping") None 1%N
    [mkCollaborator 2%N editor 7%N; mkCollaborator 3%N admin 8%N]
    [20%N; 21%N] (Some false) None [] 70%float.

Definition tent : Product := mkProduct (js "Tent") (Some 40%float) 10%N 1%N [] [].

Definition stove : Product :=
  mkProduct (js "Stove") (Some 30%float) 10%N 1%N
    [mkComment 1%N (js "nice") 3%N; mkComment 3%N (js "too heavy") 4%N] [].

Definition sharedDb : Db :=
  mkDb {[1%N; 2%N; 3%N]} {[10%N := sharedList]}
    (<[20%N := tent]> {[21%N := stove]}).

(** A public wishlist of user 1 that carries an invite code. *)
Definition partyList : Wishlist :=
  mkWishlist (js "Party") None 1%N [] [] (Some true) (Some (js "k3x9")) [] 0%float.

Definition partyDb : Db :=
  mkDb {[1%N; 2%N; 3%N]} {[10%N := partyList]} ∅.

(** A wishlist of user 1 whose three products are priced 10, nothing
    and 25. *)
Definition giftList : Wishlist :=
  mkWishlist (js "Gifts") None 1%N [] [20%N; 21%N; 22%N] (Some false) None []
    35%float.

Definition giftDb : Db :=
  mkDb {[1%N]} {[10%N := giftList]}
    (<[20%N := mkProduct (js "Book") (Some 10%float) 10%N 1%N [] []]>
       (<[21%N := mkProduct (js "Card") None 10%N 1%N [] []]>
          {[22%N := mkProduct (js "Lamp") (Some 25%float) 10%N 1%N [] []]})).

(** User 1 creates a wishlist and adds products priced 10, nothing and 25. *)
Definition giftTrace : list (ObjectId * Request) :=
  [(1%N, CreateWishlist 10%N (js "r4nd")
           (mkWishlistBody (Some (js "Gifts")) None None None));
   (1%N, AddProduct 20%N
           (mkProductBody (Some (js "Book")) (Some 10%float) (Some 10%N)));
   (1%N, AddProduct 21%N (mkProductBody (Some (js "Card")) None (Some 10%N)));
   (1%N, AddProduct 22%N
           (mkProductBody (Some (js "Lamp")) (Some 25%float) (Some 10%N)))].

(** Products priced 2^53 and 1, added to a fresh wishlist of user 1. *)
Definition largeTrace : list (ObjectId * Request) :=
  [(1%N, CreateWishlist 10%N (js "r4nd")
           (mkWishlistBody (Some (js "Gifts")) None None None));
   (1%N, AddProduct 20%N
           (mkProductBody (Some (js "Yacht")) (Some 9007199254740992%float)
              (Some 10%N)));
   (1%N, AddProduct 21%N
           (mkProductBody (Some (js "Card")) (Some 1%float) (Some 10%N)))].




(** ** The effect of one request on the wishlist collection *)

(** How the invite code of a rewritten wishlist relates to the one it
    had: kept, or replaced by a code that no other wishlist carries,
    either because the body of a successful create or update request
    carried a truthy [isPublic] or because the request is a successful
    generate-invite. *)
Definition codeEffect (db : Db) (r : Request) (res : Db * Response)
    (k : ObjectId) (old : option JsString) (w' : Wishlist) : Prop :=
  inviteCode w' = old
  ∨ ∃ c, inviteCode w' = Some c
         ∧ duplicateKey c k (Wishlists db) = false
         ∧ ((∃ rnd body, r = CreateWishlist k rnd body
                         ∧ asksPublic body = true ∧ status res.2 = 201%nat)
            ∨ (∃ rnd body, r = UpdateWishlist k rnd body
                           ∧ asksPublic body = true ∧ status res.2 = 200%nat)
            ∨ ∃ rnd, r = GenerateInvite k rnd ∧ status res.2 = 200%nat).

(** Every request leaves the wishlist collection alone, removes one
    document, inserts one under a fresh [_id], or rewrites one. *)
Inductive wishlistEffect (db : Db) (actor : ObjectId) (r : Request)
    (res : Db * Response) : Prop :=
  | effect_none :
      Wishlists res.1 = Wishlists db → wishlistEffect db actor r res
  | effect_delete k :
      Wishlists res.1 = delete k (Wishlists db) → wishlistEffect db actor r res
  | effect_create k w' :
      Wishlists db !! k = None →
      Wishlists res.1 = <[k := w']> (Wishlists db) →
      owner w' = actor → collaborators w' = [] →
      codeEffect db r res k None w' →
      wishlistEffect db actor r res
  | effect_rewrite k w w' :
      Wishlists db !! k = Some w →
      Wishlists res.1 = <[k := w']> (Wishlists db) →
      owner w' = owner w →
      (collaborators w' = collaborators w
       ∨ ∃ now, collaborators w'
                = (collaborators w ++ [mkCollaborator actor editor now])%list
                ∧ ¬ isCollaborator w actor ∧ owner w ≠ actor) →
      codeEffect db r res k (inviteCode w) w' →
      wishlistEffect db actor r res.



(** User 1 creates a public wishlist and then makes it private. *)
Definition flipTrace : list (ObjectId * Request) :=
  [(1%N, CreateWishlist 10%N (js "k3x9")
           (mkWishlistBody (Some (js "Party")) None (Some (JBool true)) None));
   (1%N, UpdateWishlist 10%N (js "p0q1")
           (mkWishlistBody None None (Some (JBool false)) None))].

(** ** The effect of one request on a stored product *)


(** ** Well-formed databases *)

(** The data-model invariants the statements below rely on: invite
    codes are unique, the user references of every wishlist resolve, a
    user occurs at most once among its collaborators, and its owner is
    not one of them. *)
Definition wellFormed (db : Db) : Prop :=
  uniqueInviteCodes (Wishlists db)
  ∧ ∀ id w, Wishlists db !! id = Some w →
      usersResolve db w ∧ collaboratorsUnique w ∧ ¬ isCollaborator w (owner w).

(** Every request of the trace comes from a registered user. *)
Definition authenticated (users : gset ObjectId)
    (trace : list (ObjectId * Request)) : Prop :=
  Forall (λ ar, ar.1 ∈ users) trace.

(** ** Proof automation *)

(** Case analysis on the request, with the router unfolded. *)
Ltac request_cases r :=
  destruct r as [|id|newId rnd body|id rnd body|id|code now|id rnd|wid|newId body
                 |id body|id|id txt now|id e now|id];
  cbn [handle] in *.

(** Every branch of every handler. *)
Ltac handler_branches :=
  unfold getWishlists, getWishlist, createWishlist, updateWishlist, deleteWishlist,
    join, generateInvite, getProducts, addProduct, updateProduct, deleteProduct,
    addComment, addReaction, removeReaction,
    Wishlist_findByIdAndUpdate, Product_findByIdAndUpdate in *;
  repeat case_match; simplify_option_eq.

(** User 1 creates the public party wishlist and user 2 joins it. *)
Definition joinTrace : list (ObjectId * Request) :=
  [(1%N, CreateWishlist 10%N (js "k3x9")
           (mkWishlistBody (Some (js "Party")) None (Some (JBool true)) None));
   (2%N, Join (js "k3x9") 5%N)].

(** ** The wishlist a request leaves behind *)

(** The document stored under [k] after a request, by the route that
    wrote it: it was there before, or create-wishlist made it, or one
    of update-wishlist, join and generate-invite rewrote it, or a
    product route recomputed its references and its total. *)
Inductive wishlistAfter (db : Db) (actor : ObjectId) (r : Request)
    (k : ObjectId) (w' : Wishlist) : Prop :=
  | after_unchanged :
      Wishlists db !! k = Some w' → wishlistAfter db actor r k w'
  | after_create rnd body :
      r = CreateWishlist k rnd body →
      Wishlists db !! k = None →
      owner w' = actor → collaborators w' = [] → products w' = [] →
      totalValue w' = 0%float →
      castBoolean (isPublicOrFalse body) = Some (isPublic w') →
      inviteCode w' = (if asksPublic body then Some rnd else None) →
      wishlistAfter db actor r k w'
  | after_update w rnd body :
      r = UpdateWishlist k rnd body →
      Wishlists db !! k = Some w →
      isOwner w actor || isAdmin w actor = true →
      owner w' = owner w → collaborators w' = collaborators w →
      products w' = products w → totalValue w' = totalValue w →
      match body_isPublic body with
      | Some v => castBoolean v = Some (isPublic w')
      | None => isPublic w' = isPublic w
      end →
      inviteCode w'
      = (if asksPublic body && noInviteCode w then Some rnd else inviteCode w) →
      wishlistAfter db actor r k w'
  | after_join w code now :
      r = Join code now →
      Wishlists db !! k = Some w → inviteCode w = Some code →
      isAlreadyCollaborator w actor = false → isOwner w actor = false →
      w' = pushCollaborator w actor now →
      wishlistAfter db actor r k w'
  | after_generate w rnd :
      r = GenerateInvite k rnd →
      Wishlists db !! k = Some w →
      isOwner w actor || isAdmin w actor = true →
      w' = (generateInviteCode rnd w).1 →
      wishlistAfter db actor r k w'
  | after_product w :
      Wishlists db !! k = Some w →
      owner w' = owner w → collaborators w' = collaborators w →
      isPublic w' = isPublic w → inviteCode w' = inviteCode w →
      title w' = title w → description w' = description w → tags w' = tags w →
      totalValue w' = referencedTotal (Products (handle db actor r).1) w' →
      wishlistAfter db actor r k w'.

(** ** config/cloudinary.js *)

(** The code units of ["/"], ["v"] and ["."]. *)
Definition slash : CodeUnit := 47%N.
Definition letterV : CodeUnit := 118%N.
Definition dot : CodeUnit := 46%N.

(** [\d] without the unicode flag: the ASCII digits. *)
Definition isDigit (c : CodeUnit) : bool := N.leb 48 c && N.leb c 57.

(** The line terminators, which [.] does not match: LF, CR, U+2028 and
    U+2029. *)
Definition isLineTerminator (c : CodeUnit) : bool :=
  bool_decide (c ∈ [10; 13; 8232; 8233]%N).

(** [\d+] at the head of [s], greedy: what follows the digits.  Giving
    digits back cannot help the match, since a ["/"] has to follow. *)
Fixpoint skipDigits (s : JsString) : JsString :=
  match s with
  | c :: s' => if isDigit c then skipDigits s' else s
  | [] => []
  end.

(** Any code units and then a dot, at the head of [s], greedy with
    backtracking: the text before the last ["."] of the first line of
    [s]. *)
Fixpoint beforeLastDot (s : JsString) : option JsString :=
  match s with
  | [] => None
  | c :: s' =>
      if isLineTerminator c then None
      else match beforeLastDot s' with
           | Some t => Some (c :: t)
           | None => if N.eqb c dot then Some [] else None
           end
  end.

(** The group and the dot of the regular expression, at the head of
    [s]: as above, with at least one code unit in the group. *)
Definition captureGroup (s : JsString) : option JsString :=
  match s with
  | [] => None
  | c :: s' =>
      if isLineTerminator c then None
      else cons c <$> beforeLastDot s'
  end.

(** The regular expression [/\/v\d+\/(.+)\./] matched at the head of
    [s]; the result is the group. *)
Definition matchHere (s : JsString) : option JsString :=
  match s with
  | c1 :: c2 :: d :: rest =>
      if N.eqb c1 slash && N.eqb c2 letterV && isDigit d
      then match skipDigits rest with
           | c :: tail => if N.eqb c slash then captureGroup tail else None
           | [] => None
           end
      else None
  | _ => None
  end.

(** [url.match(...)]: the match that starts leftmost. *)
Fixpoint firstMatch (s : JsString) : option JsString :=
  match matchHere s with
  | Some group => Some group
  | None =>
      match s with
      | [] => None
      | _ :: s' => firstMatch s'
      end
  end.

(** [extractPublicId]: [null] for an empty URL, else the group of the
    first match, [null] without match. *)
Definition extractPublicId (url : JsString) : option JsString :=
  if truthy url then firstMatch url else None.

(** All code units are digits. *)
Definition allDigits (s : JsString) : bool := forallb isDigit s.

(** No code unit is a line terminator. *)
Definition oneLine (s : JsString) : bool :=
  forallb (λ c, negb (isLineTerminator c)) s.

(** No code unit is a dot. *)
Definition noDot (s : JsString) : bool := forallb (λ c, negb (N.eqb c dot)) s.

(** The two code units ["/v"] occur nowhere in the text. *)
Fixpoint noSlashV (s : JsString) : bool :=
  match s with
  | c1 :: s' =>
      match s' with
      | c2 :: _ => negb (N.eqb c1 slash && N.eqb c2 letterV) && noSlashV s'
      | [] => true
      end
  | [] => true
  end.

(** ** routes/upload.js *)

(** What [cloudinary.uploader.destroy] does with a public identifier,
    seen from [deleteImage]: the call throws, and [deleteImage] throws
    again, or it resolves to an object with the given [result] field. *)
Inductive Destroyed :=
  | DestroyThrows
  | DestroyResult (result : JsString).

(** DELETE /api/upload/image.  [imageUrl] is [req.body.imageUrl], absent
    or a string, and [destroy] the storage service.  Beside the response
    the handler's value names the public identifier handed to the
    service, when the service was called. *)
Definition deleteImageRoute (imageUrl : option JsString)
    (destroy : JsString → Destroyed) : Response * option JsString :=
  match imageUrl with
  | None => (mkResponse 400 (Message "Image URL is required"), None)
  | Some url =>
      if negb (truthy url)
      then (mkResponse 400 (Message "Image URL is required"), None)
      else
        match extractPublicId url with
        | None => (mkResponse 400 (Message "Invalid Cloudinary URL"), None)
        | Some publicId =>
            if negb (truthy publicId)
            then (mkResponse 400 (Message "Invalid Cloudinary URL"), None)
            else
              match destroy publicId with
              | DestroyThrows =>
                  (mkResponse 500 (Message "Server error during image deletion"),
                   Some publicId)
              | DestroyResult result =>
                  if bool_decide (result = js "ok")
                  then (mkResponse 200 (Message "Image deleted successfully"),
                        Some publicId)
                  else (mkResponse 400 (Message "Failed to delete image"),
                        Some publicId)
              end
        end
  end.

(** ** Authorization checks against the specification's predicates *)

Lemma isOwner_true w actor : isOwner w actor = true ↔ owner w = actor.
Proof. unfold isOwner. apply bool_decide_eq_true. Qed.

Lemma isAlreadyCollaborator_true w actor :
  isAlreadyCollaborator w actor = true ↔ isCollaborator w actor.
Proof.
  unfold isAlreadyCollaborator, isCollaborator. rewrite existsb_exists.
  split; intros (c & Hc & Hu); exists c.
  - apply list_elem_of_In in Hc. by apply bool_decide_eq_true in Hu.
  - split; [by apply list_elem_of_In | by apply bool_decide_eq_true].
Qed.

Lemma hasRole_true roles w actor :
  hasRole roles w actor = true
  ↔ ∃ c, c ∈ collaborators w ∧ collab_user c = actor ∧ collab_role c ∈ roles.
Proof.
  unfold hasRole. rewrite existsb_exists.
  split; intros (c & Hc & Hu); exists c.
  - apply list_elem_of_In in Hc. apply andb_true_iff in Hu as [Hu Hr].
    apply bool_decide_eq_true in Hu, Hr. done.
  - destruct Hu as [Hu Hr]. split; [by apply list_elem_of_In|].
    apply andb_true_iff. by rewrite !bool_decide_eq_true.
Qed.

Lemma isAdmin_true w actor :
  isAdmin w actor = true ↔ collaboratesAs admin w actor.
Proof.
  unfold isAdmin, collaboratesAs. rewrite existsb_exists.
  split; intros (c & Hc & Hu); exists c.
  - apply list_elem_of_In in Hc. apply andb_true_iff in Hu as [Hu Hr].
    apply bool_decide_eq_true in Hu, Hr. done.
  - destruct Hu as [Hu Hr]. split; [by apply list_elem_of_In|].
    apply andb_true_iff. by rewrite !bool_decide_eq_true.
Qed.


Lemma publicFlag_true w : publicFlag w = true ↔ isPublic w = Some true.
Proof. unfold publicFlag. by destruct (isPublic w) as [[]|]. Qed.

Lemma hasAccess_canView w actor : hasAccess w actor = true ↔ canView w actor.
Proof.
  unfold hasAccess, canView.
  rewrite !orb_true_iff, isOwner_true, isAlreadyCollaborator_true, publicFlag_true.
  tauto.
Qed.

Lemma hasAccess_false w actor : hasAccess w actor = false ↔ ¬ canView w actor.
Proof. rewrite <- hasAccess_canView. by destruct (hasAccess w actor). Qed.

Lemma canDelete_canDeleteProduct w p actor :
  canDelete w p actor = true ↔ canDeleteProduct w p actor.
Proof.
  unfold canDelete, canDeleteProduct.
  rewrite !orb_true_iff, isOwner_true, bool_decide_eq_true, hasRole_true.
  unfold collaboratesAs. split.
  - intros [[?|?]|(c & ? & ? & Hr)]; [tauto..|].
    right; right. exists c. apply list_elem_of_singleton in Hr. done.
  - intros [?|[?|(c & ? & ? & Hr)]]; [tauto..|].
    right. exists c. rewrite Hr. split_and!; [done..|]. by apply list_elem_of_singleton.
Qed.

Lemma somePopulated_resolved db actor cs :
  (∀ c, c ∈ cs → collab_user c ∈ Users db) →
  somePopulated db actor cs
  = Some (existsb (λ collab, bool_decide (collab_user collab = actor)) cs).
Proof.
  induction cs as [|c cs IH]; intros Hres; [done|].
  cbn [somePopulated existsb]. unfold populatedId.
  rewrite decide_True by (apply Hres; left). cbn.
  destruct (bool_decide (collab_user c = actor)); [done|].
  apply IH. intros c' Hc'. apply Hres. by right.
Qed.

Lemma hasAccessPopulated_resolved db w actor :
  usersResolve db w → hasAccessPopulated db w actor = Some (hasAccess w actor).
Proof.
  intros [Ho Hc]. unfold hasAccessPopulated, hasAccess, populatedId.
  rewrite decide_True by done. cbn.
  rewrite somePopulated_resolved by done. cbn.
  unfold isOwner, isAlreadyCollaborator.
  by destruct (bool_decide (owner w = actor)).
Qed.

(** ** Read access *)

(** C1.  The read operations (get a single wishlist, list the products
    of a wishlist) and the access check in front of add-comment and
    add-reaction let the actor through exactly when the actor is the
    owner, or occurs among the collaborators with whatever role, or the
    wishlist is public; otherwise the answer is 403 and the database is
    the one before the request.  Get-single-wishlist reads the
    identifiers off the populated user documents, which takes the
    user references of the wishlist to resolve. *)
Theorem view_access_iff_owner_collaborator_public
    (db : Db) (actor id : ObjectId) (w : Wishlist) :
  Wishlists db !! id = Some w →
  (canView w actor →
     (usersResolve db w →
        getWishlist db actor id = reply db 200 (WishlistDoc w))
     ∧ getProducts db actor id
       = reply db 200 (ProductDocs (Product_find id (Products db)))
     ∧ ∀ pid p, Products db !! pid = Some p → wishlist p = id →
         (∀ txt now, status (addComment db actor pid txt now).2 ≠ 403%nat)
         ∧ (∀ e now, status (addReaction db actor pid e now).2 ≠ 403%nat))
  ∧ (¬ canView w actor →
     (usersResolve db w →
        getWishlist db actor id = reply db 403 (Message "Access denied"))
     ∧ getProducts db actor id = reply db 403 (Message "Access denied")
     ∧ ∀ pid p, Products db !! pid = Some p → wishlist p = id →
         (∀ txt now,
            addComment db actor pid txt now = reply db 403 (Message "Access denied"))
         ∧ (∀ e now,
            addReaction db actor pid e now = reply db 403 (Message "Access denied"))).
Proof.
  intros Hw. split.
  - intros Hview. apply hasAccess_canView in Hview.
    split_and!.
    + intros Hres. unfold getWishlist.
      by rewrite Hw, hasAccessPopulated_resolved, Hview.
    + unfold getProducts. by rewrite Hw, Hview.
    + intros pid p Hp <-. split.
      * intros txt now. unfold addComment. rewrite Hp, Hw, Hview. cbn.
        by destruct (castRequired 500 txt).
      * intros e now. unfold addReaction. rewrite Hp, Hw, Hview. cbn.
        by destruct e.
  - intros Hview. apply hasAccess_false in Hview.
    split_and!.
    + intros Hres. unfold getWishlist.
      by rewrite Hw, hasAccessPopulated_resolved, Hview.
    + unfold getProducts. by rewrite Hw, Hview.
    + intros pid p Hp <-. split.
      * intros txt now. unfold addComment. by rewrite Hp, Hw, Hview.
      * intros e now. unfold addReaction. by rewrite Hp, Hw, Hview.
Qed.

Lemma view_access_iff_owner_collaborator_public_witness :
  getWishlist privateDb 2%N 10%N = reply privateDb 200 (WishlistDoc privateList)
  ∧ getWishlist privateDb 3%N 10%N = reply privateDb 403 (Message "Access denied").
Proof.
  assert (Hl : Wishlists privateDb !! 10%N = Some privateList) by reflexivity.
  assert (Hr : usersResolve privateDb privateList).
  { split; [set_solver|]. intros c Hc. cbn in Hc.
    apply list_elem_of_singleton in Hc as ->. cbn. set_solver. }
  destruct (view_access_iff_owner_collaborator_public privateDb 2%N 10%N
              privateList Hl) as [Hgrant _].
  destruct (view_access_iff_owner_collaborator_public privateDb 3%N 10%N
              privateList Hl) as [_ Hdeny].
  split.
  - destruct Hgrant as [Hget _]; [|by apply Hget].
    right; left. exists (mkCollaborator 2%N viewer 7%N). split; [left | done].
  - destruct Hdeny as [Hget _]; [|by apply Hget].
    intros [H|[(c & Hc & Hu)|H]]; [done| |done].
    cbn in Hc. apply list_elem_of_singleton in Hc as ->. done.
Defined.

(** ** Product roles *)




Lemma deleteProduct_denied db actor id p w :
  Products db !! id = Some p → Wishlists db !! wishlist p = Some w →
  ¬ canDeleteProduct w p actor →
  deleteProduct db actor id = reply db 403 (Message "Access denied").
Proof.
  intros Hp Hw Hcan. rewrite <- canDelete_canDeleteProduct in Hcan.
  apply not_true_is_false in Hcan.
  unfold deleteProduct. by rewrite Hp, Hw, Hcan.
Qed.


Lemma hasRole_editor_admin w actor :
  hasRole [editor; admin] w actor = true
  ↔ collaboratesAs editor w actor ∨ collaboratesAs admin w actor.
Proof.
  unfold collaboratesAs. rewrite hasRole_true. split.
  - intros (c & ? & ? & Hr).
    apply elem_of_cons in Hr as [Hr|Hr]; [left; by exists c|].
    apply list_elem_of_singleton in Hr. right. by exists c.
  - intros [(c & ? & ? & Hr)|(c & ? & ? & Hr)]; exists c;
      rewrite Hr; split_and!; try done; [left|right; left].
Qed.

Lemma canAdd_true w actor :
  canAdd w actor = true
  ↔ owner w = actor ∨ collaboratesAs editor w actor ∨ collaboratesAs admin w actor.
Proof.
  unfold canAdd. by rewrite orb_true_iff, isOwner_true, hasRole_editor_admin.
Qed.

Lemma canEdit_true w p actor :
  canEdit w p actor = true
  ↔ owner w = actor ∨ addedBy p = actor
    ∨ collaboratesAs editor w actor ∨ collaboratesAs admin w actor.
Proof.
  unfold canEdit.
  rewrite !orb_true_iff, isOwner_true, bool_decide_eq_true, hasRole_editor_admin.
  tauto.
Qed.








(** ** Deleting a wishlist *)

(** C6.  Only the owner deletes a wishlist: for any other actor, an
    admin collaborator included, the answer is 403 and nothing
    changes.  When the owner deletes, the wishlist is gone, no stored
    product refers to it any more, and the products of other wishlists
    are as before. *)
Theorem delete_wishlist_owner_only_and_cascades
    (db : Db) (actor id : ObjectId) (w : Wishlist) :
  Wishlists db !! id = Some w →
  (owner w = actor →
     status (deleteWishlist db actor id).2 = 200%nat
     ∧ Wishlists (deleteWishlist db actor id).1 !! id = None
     ∧ (∀ pid p, Products (deleteWishlist db actor id).1 !! pid = Some p →
                 wishlist p ≠ id)
     ∧ (∀ pid p, Products db !! pid = Some p → wishlist p ≠ id →
                 Products (deleteWishlist db actor id).1 !! pid = Some p))
  ∧ (owner w ≠ actor →
     deleteWishlist db actor id
     = reply db 403 (Message "Only owner can delete wishlist"))
  ∧ (collaboratesAs admin w actor → owner w ≠ actor →
     deleteWishlist db actor id
     = reply db 403 (Message "Only owner can delete wishlist")).
Proof.
  intros Hw.
  assert (Hdenied : owner w ≠ actor →
    deleteWishlist db actor id
    = reply db 403 (Message "Only owner can delete wishlist")).
  { intros Hno. unfold deleteWishlist, isOwner. rewrite Hw.
    by rewrite bool_decide_eq_false_2. }
  split_and!; [|done|by intros _].
  intros Ho. unfold deleteWishlist, isOwner. rewrite Hw.
  rewrite bool_decide_eq_true_2 by done. cbn.
  split_and!.
  - done.
  - apply lookup_delete_eq.
  - intros pid p Hp. unfold Product_deleteMany in Hp.
    by apply map_lookup_filter_Some in Hp as [_ Hne].
  - intros pid p Hp Hne. unfold Product_deleteMany.
    by apply map_lookup_filter_Some.
Qed.

Lemma delete_wishlist_owner_only_and_cascades_witness :
  deleteWishlist sharedDb 3%N 10%N
  = reply sharedDb 403 (Message "Only owner can delete wishlist")
  ∧ Products (deleteWishlist sharedDb 1%N 10%N).1 !! 20%N = None.
Proof.
  assert (Hw : Wishlists sharedDb !! 10%N = Some sharedList) by reflexivity.
  pose proof (delete_wishlist_owner_only_and_cascades sharedDb 3%N 10%N sharedList Hw)
    as (_ & _ & Hadmin).
  pose proof (delete_wishlist_owner_only_and_cascades sharedDb 1%N 10%N sharedList Hw)
    as (Howner & _).
  split.
  - apply Hadmin; [|done].
    exists (mkCollaborator 3%N admin 8%N). split_and!; [right; left|done..].
  - destruct (Howner eq_refl) as (_ & _ & Hnone & _).
    destruct (Products (deleteWishlist sharedDb 1%N 10%N).1 !! 20%N) as [p|] eqn:E;
      [|done].
    pose proof (Hnone _ _ E) as Hne.
    assert (Hin : Products sharedDb !! 20%N = Some p).
    { cbn in E. unfold Product_deleteMany in E.
      by apply map_lookup_filter_Some in E as [E _]. }
    vm_compute in Hin. by injection Hin as <-.
Defined.

(** ** Invite codes and joining *)

Lemma findOne_Some c ws i w :
  findOne c ws = Some (i, w) → ws !! i = Some w ∧ inviteCode w = Some c.
Proof.
  unfold findOne. intros H.
  apply fmap_Some in H as ([n [j v]] & Hfind & Heq). cbn in Heq.
  injection Heq as -> ->.
  apply list_find_Some in Hfind as (Hl & Hc & _).
  split; [|done].
  apply elem_of_map_to_list. by apply list_elem_of_lookup_2 in Hl.
Qed.

Lemma findOne_None c ws :
  findOne c ws = None ↔ ∀ i w, ws !! i = Some w → inviteCode w ≠ Some c.
Proof.
  unfold findOne. rewrite fmap_None, list_find_None, Forall_forall. split.
  - intros H i w Hi. apply (H (i, w)). by apply elem_of_map_to_list.
  - intros H [i w] Hi. apply (H i w). by apply elem_of_map_to_list.
Qed.

Lemma findOne_unique c ws i w :
  uniqueInviteCodes ws → ws !! i = Some w → inviteCode w = Some c →
  findOne c ws = Some (i, w).
Proof.
  intros Hu Hi Hc.
  destruct (findOne c ws) as [[j v]|] eqn:E.
  - apply findOne_Some in E as [Hj Hv].
    assert (j = i) as -> by (by apply (Hu j i v w c)).
    congruence.
  - exfalso. by apply (proj1 (findOne_None c ws) E i w).
Qed.

Lemma uniqueInviteCodes_same_code ws i w w' :
  uniqueInviteCodes ws → ws !! i = Some w → inviteCode w' = inviteCode w →
  uniqueInviteCodes (<[i := w']> ws).
Proof.
  intros Hu Hi Hc a b wa wb c Ha Hb Hca Hcb.
  destruct (decide (a = i)) as [->|Hai], (decide (b = i)) as [->|Hbi]; [done|..].
  - rewrite lookup_insert_eq in Ha. rewrite lookup_insert_ne in Hb by done.
    injection Ha as <-. apply (Hu i b w wb c); congruence.
  - rewrite lookup_insert_eq in Hb. rewrite lookup_insert_ne in Ha by done.
    injection Hb as <-. apply (Hu a i wa w c); congruence.
  - rewrite lookup_insert_ne in Ha, Hb by done. by apply (Hu a b wa wb c).
Qed.

(** C3.  Joining with a code that no wishlist carries answers 404.
    With the unique index on invite codes in force, joining the
    wishlist that carries the code answers 400 and changes nothing when
    the actor is its owner or already one of its collaborators;
    otherwise exactly one entry, the actor with role editor, is
    appended to that wishlist's collaborators, and the same actor
    joining again with the same code is answered 400. *)
Theorem join_by_invite_code
    (db : Db) (actor : ObjectId) (code : JsString) (now : Time) :
  ((∀ id w, Wishlists db !! id = Some w → inviteCode w ≠ Some code) →
     join db actor code now = reply db 404 (Message "Invalid invite code"))
  ∧ (uniqueInviteCodes (Wishlists db) →
     ∀ id w, Wishlists db !! id = Some w → inviteCode w = Some code →
       (owner w = actor ∨ isCollaborator w actor →
          join db actor code now
          = reply db 400 (Message "You are already part of this wishlist"))
       ∧ (¬ (owner w = actor ∨ isCollaborator w actor) →
          let w' := pushCollaborator w actor now in
          let db' := saveWishlist db id w' in
          join db actor code now
          = reply db' 200 (JoinedDoc "Successfully joined wishlist" w')
          ∧ collaborators w'
            = (collaborators w ++ [mkCollaborator actor editor now])%list
          ∧ ∀ now', join db' actor code now'
                    = reply db' 400
                        (Message "You are already part of this wishlist"))).
Proof.
  split.
  - intros Hnone. unfold join.
    by rewrite (proj2 (findOne_None code (Wishlists db)) Hnone).
  - intros Hu id w Hw Hc.
    assert (Hfind := findOne_unique code _ id w Hu Hw Hc).
    assert (Hmember : ∀ v, isAlreadyCollaborator v actor || isOwner v actor = true
                           ↔ owner v = actor ∨ isCollaborator v actor).
    { intros v. rewrite orb_true_iff, isOwner_true, isAlreadyCollaborator_true.
      tauto. }
    split.
    + intros Hin%Hmember. unfold join. by rewrite Hfind, Hin.
    + intros Hout. rewrite <- Hmember in Hout. apply not_true_is_false in Hout.
      cbn zeta. split_and!.
      * unfold join. by rewrite Hfind, Hout.
      * done.
      * intros now'. unfold join.
        rewrite (findOne_unique code _ id (pushCollaborator w actor now)).
        -- rewrite (proj2 (Hmember _)); [done|].
           right. exists (mkCollaborator actor editor now). split; [|done].
           cbn. apply elem_of_app. right. left.
        -- cbn. by apply (uniqueInviteCodes_same_code _ id w).
        -- cbn. apply lookup_insert_eq.
        -- done.
Qed.

Lemma join_by_invite_code_witness :
  join partyDb 2%N (js "k3x9") 5%N
  = reply (saveWishlist partyDb 10%N (pushCollaborator partyList 2%N 5%N)) 200
      (JoinedDoc "Successfully joined wishlist" (pushCollaborator partyList 2%N 5%N))
  ∧ join partyDb 1%N (js "k3x9") 5%N
    = reply partyDb 400 (Message "You are already part of this wishlist").
Proof.
  assert (Hu : uniqueInviteCodes (Wishlists partyDb)).
  { intros i j wi wj c Hi Hj _ _. cbn in Hi, Hj.
    apply lookup_singleton_Some in Hi as [<- _].
    by apply lookup_singleton_Some in Hj as [<- _]. }
  assert (Hw : Wishlists partyDb !! 10%N = Some partyList) by reflexivity.
  destruct (join_by_invite_code partyDb 2%N (js "k3x9") 5%N) as [_ H2].
  destruct (join_by_invite_code partyDb 1%N (js "k3x9") 5%N) as [_ H1].
  split.
  - apply (H2 Hu 10%N partyList Hw eq_refl).
    intros [H|(c & Hc & _)]; [done|]. cbn in Hc. by apply elem_of_nil in Hc.
  - apply (H1 Hu 10%N partyList Hw eq_refl). by left.
Defined.


(** ** Total value *)

Lemma reduce_populated ps (refs : list ObjectId) (acc : float) :
  fold_left (λ total product, PrimFloat.add total (priceOrZero product))
    (populateProducts ps refs) acc
  = fold_left (λ total i, match ps !! i with
                          | Some p => PrimFloat.add total (priceOrZero p)
                          | None => total
                          end) refs acc.
Proof.
  unfold populateProducts. revert acc.
  induction refs as [|i refs IH]; intros acc; [done|].
  cbn. destruct (ps !! i) as [p|]; cbn; apply IH.
Qed.

Lemma calculateTotalValue_total ps w :
  totalValue (calculateTotalValue ps w) = referencedTotal ps w.
Proof. unfold calculateTotalValue, referencedTotal. cbn. apply reduce_populated. Qed.

Lemma referencedTotal_ext ps ps' w w' :
  products w' = products w →
  (∀ i, i ∈ products w → ps !! i = ps' !! i) →
  referencedTotal ps w = referencedTotal ps' w'.
Proof.
  unfold referencedTotal. intros -> Hext. generalize 0%float.
  induction (products w) as [|i refs IH]; intros acc; [done|].
  cbn. rewrite (Hext i) by left. apply IH.
  intros j Hj. apply Hext. by right.
Qed.

Lemma addProduct_created db actor newId body :
  status (addProduct db actor newId body).2 = 201%nat →
  ∃ wid w n,
    body_wishlistId body = Some wid ∧ Wishlists db !! wid = Some w
    ∧ canAdd w actor = true ∧ castRequired 200 (body_name body) = Some n
    ∧ Products db !! newId = None
    ∧ let product := mkProduct n (body_price body) wid actor [] [] in
      let db1 := saveProduct db newId product in
      addProduct db actor newId body
      = reply (saveWishlist db1 wid
                 (calculateTotalValue (Products db1) (pushProduct w newId)))
          201 (ProductDoc product).
Proof.
  unfold addProduct.
  destruct (body_wishlistId body) as [wid|]; cbn; [|done].
  destruct (Wishlists db !! wid) as [w|] eqn:Hw; cbn; [|done].
  destruct (canAdd w actor) eqn:Hcan; cbn; [|done].
  destruct (castRequired 200 (body_name body)) as [n|] eqn:Hn; [|done].
  destruct (validPrice (body_price body)); cbn; [|done].
  case_bool_decide as Hfresh; [done|]. intros _.
  exists wid, w, n. split_and!; try done.
  by apply eq_None_not_Some.
Qed.


Lemma updateProduct_updated db actor id body :
  status (updateProduct db actor id body).2 = 200%nat →
  ∃ p w p',
    Products db !! id = Some p ∧ Wishlists db !! wishlist p = Some w
    ∧ canEdit w p actor = true
    ∧ applyUpdate p (deleteKey "addedBy" (deleteKey "wishlist" body)) = Some p'
    ∧ let db1 := saveProduct db id p' in
      updateProduct db actor id body
      = reply (saveWishlist db1 (wishlist p)
                 (calculateTotalValue (Products db1) w))
          200 (ProductDoc p').
Proof.
  unfold updateProduct, Product_findByIdAndUpdate.
  destruct (Products db !! id) as [p|] eqn:Hp; [|done].
  destruct (Wishlists db !! wishlist p) as [w|] eqn:Hw; [|done].
  destruct (canEdit w p actor) eqn:Hcan; cbn; [|done].
  destruct (applyUpdate p _) as [p'|] eqn:Hall; cbn; [|done]. intros _.
  by exists p, w, p'.
Qed.

Lemma deleteProduct_deleted db actor id :
  status (deleteProduct db actor id).2 = 200%nat →
  ∃ p w,
    Products db !! id = Some p ∧ Wishlists db !! wishlist p = Some w
    ∧ canDelete w p actor = true
    ∧ deleteProduct db actor id
      = reply (setProducts
                 (saveWishlist db (wishlist p)
                    (calculateTotalValue (Products db) (pullProduct w id)))
                 (delete id (Products db)))
          200 (Message "Product deleted successfully").
Proof.
  unfold deleteProduct.
  destruct (Products db !! id) as [p|] eqn:Hp; [|done].
  destruct (Wishlists db !! wishlist p) as [w|] eqn:Hw; [|done].
  destruct (canDelete w p actor) eqn:Hcan; cbn; [|done]. intros _.
  by exists p, w.
Qed.

(** C4.  After a successful add-product, update-product or
    delete-product the wishlist that the handler saves carries as its
    total value the sum of the prices of the products it references in
    the resulting database, a product without price counting 0; after
    a delete the removed product is no longer among the references.
    The sum is the one the code computes: binary64 additions in the
    order of the references.  With products priced 10, nothing and 25
    the total is 35; it is 37.5 once the first price is updated to 12.5,
    an update that is answered 200, and 10 once the product priced 25
    is deleted.  With products priced 2^53 and 1 the total is 2^53. *)
Theorem total_value_recomputed (db : Db) (actor : ObjectId) :
  (∀ newId body wid,
     body_wishlistId body = Some wid →
     status (addProduct db actor newId body).2 = 201%nat →
     ∃ w', Wishlists (addProduct db actor newId body).1 !! wid = Some w'
           ∧ newId ∈ products w'
           ∧ totalValue w'
             = referencedTotal (Products (addProduct db actor newId body).1) w')
  ∧ (∀ id body p,
     Products db !! id = Some p →
     status (updateProduct db actor id body).2 = 200%nat →
     ∃ w', Wishlists (updateProduct db actor id body).1 !! wishlist p = Some w'
           ∧ totalValue w'
             = referencedTotal (Products (updateProduct db actor id body).1) w')
  ∧ (∀ id p,
     Products db !! id = Some p →
     status (deleteProduct db actor id).2 = 200%nat →
     ∃ w', Wishlists (deleteProduct db actor id).1 !! wishlist p = Some w'
           ∧ (id ∉ products w')
           ∧ totalValue w'
             = referencedTotal (Products (deleteProduct db actor id).1) w')
  ∧ (totalValue <$> Wishlists (run (initial {[1%N]}) giftTrace) !! 10%N
     = Some 35%float
     ∧ status (handle (run (initial {[1%N]}) giftTrace) 1%N
                 (UpdateProduct 20%N [Path (SetPrice 12.5%float)])).2 = 200%nat
     ∧ totalValue
         <$> Wishlists (handle (run (initial {[1%N]}) giftTrace) 1%N
                          (UpdateProduct 20%N [Path (SetPrice 12.5%float)])).1
             !! 10%N
       = Some 37.5%float
     ∧ totalValue
         <$> Wishlists (handle (run (initial {[1%N]}) giftTrace) 1%N
                          (DeleteProduct 22%N)).1 !! 10%N
       = Some 10%float
     ∧ totalValue <$> Wishlists (run (initial {[1%N]}) largeTrace) !! 10%N
       = Some 9007199254740992%float).
Proof.
  split_and!; [| | |by vm_compute..].
  - intros newId body wid Hb Hst.
    apply addProduct_created in Hst
      as (wid' & w & n & Hb' & Hw & _ & _ & _ & ->).
    assert (wid' = wid) as -> by congruence. cbn.
    eexists. split_and!; [apply lookup_insert_eq| |].
    + cbn. apply elem_of_app. right. left.
    + by rewrite calculateTotalValue_total.
  - intros id body p Hp Hst.
    apply updateProduct_updated in Hst as (p0 & w & p' & Hp0 & Hw & _ & _ & ->).
    assert (p0 = p) as -> by congruence. cbn.
    eexists. split; [apply lookup_insert_eq|].
    by rewrite calculateTotalValue_total.
  - intros id p Hp Hst.
    apply deleteProduct_deleted in Hst as (p0 & w & Hp0 & Hw & _ & ->).
    assert (p0 = p) as -> by congruence. cbn.
    eexists. split_and!; [apply lookup_insert_eq| |].
    + cbn. intros Hin. by apply list_elem_of_filter in Hin as [Hne _].
    + rewrite calculateTotalValue_total.
      apply referencedTotal_ext; [done|].
      intros i Hi. cbn in Hi. apply list_elem_of_filter in Hi as [Hne _].
      by rewrite lookup_delete_ne.
Qed.

Lemma total_value_recomputed_witness :
  referencedTotal (Products giftDb) giftList = 35%float
  ∧ (∃ w', Wishlists (deleteProduct giftDb 1%N 22%N).1 !! 10%N = Some w'
           ∧ (22%N ∉ products w')
           ∧ totalValue w'
             = referencedTotal (Products (deleteProduct giftDb 1%N 22%N).1) w'
           ∧ totalValue w' = 10%float)
  ∧ ∃ w', Wishlists (updateProduct giftDb 1%N 20%N [Path (SetPrice 12.5%float)]).1
            !! 10%N = Some w'
          ∧ totalValue w'
            = referencedTotal
                (Products
                   (updateProduct giftDb 1%N 20%N [Path (SetPrice 12.5%float)]).1)
                w'
          ∧ totalValue w' = 37.5%float.
Proof.
  split; [reflexivity|].
  destruct (total_value_recomputed giftDb 1%N) as (_ & Hupd & Hdel & _).
  split.
  - destruct (Hdel 22%N (mkProduct (js "Lamp") (Some 25%float) 10%N 1%N [] [])
                eq_refl eq_refl) as (w' & Hw' & Hnot & Htot).
    exists w'. split_and!; [done..|].
    vm_compute in Hw'. by injection Hw' as <-.
  - destruct (Hupd 20%N [Path (SetPrice 12.5%float)]
                (mkProduct (js "Book") (Some 10%float) 10%N 1%N [] [])
                eq_refl eq_refl) as (w' & Hw' & Htot).
    exists w'. split_and!; [done..|].
    vm_compute in Hw'. by injection Hw' as <-.
Defined.

(** ** Reactions *)












(** ** One request and the wishlist collection *)

Lemma duplicateKey_false c k ws :
  duplicateKey c k ws = false
  ↔ ∀ j w, j ≠ k → ws !! j = Some w → inviteCode w ≠ Some c.
Proof.
  unfold duplicateKey.
  rewrite bool_decide_eq_false, <- eq_None_not_Some, findOne_None. split.
  - intros H j w Hj Hw. apply (H j w). by rewrite lookup_delete_ne.
  - intros H j w Hw. apply lookup_delete_Some in Hw as [Hj Hw]. by apply (H j w).
Qed.


Lemma createWishlist_created db actor newId rnd body :
  status (createWishlist db actor newId rnd body).2 = 201%nat →
  ∃ t d flag,
    castRequired 100 (body_title body) = Some t
    ∧ castOptional 500 (body_description body) = Some d
    ∧ castBoolean (isPublicOrFalse body) = Some flag
    ∧ Wishlists db !! newId = None
    ∧ (asksPublic body = true → duplicateKey rnd newId (Wishlists db) = false)
    ∧ let w := mkWishlist t d actor [] [] flag
                 (if asksPublic body then Some rnd else None)
                 (trim <$> default [] (body_tags body)) 0%float in
      createWishlist db actor newId rnd body
      = reply (saveWishlist db newId w) 201 (WishlistDoc w).
Proof.
  unfold createWishlist.
  destruct (castRequired 100 (body_title body)) as [t|]; [|done].
  destruct (castOptional 500 (body_description body)) as [d|]; [|done].
  destruct (castBoolean (isPublicOrFalse body)) as [flag|]; [|done].
  case_bool_decide as Hfresh; [done|]. apply eq_None_not_Some in Hfresh.
  destruct (asksPublic body); cbn.
  - destruct (duplicateKey rnd newId (Wishlists db)) eqn:Hdup; [done|]. intros _.
    by exists t, d, flag.
  - intros _. by exists t, d, flag.
Qed.

Lemma createWishlist_failed db actor newId rnd body :
  status (createWishlist db actor newId rnd body).2 ≠ 201%nat →
  createWishlist db actor newId rnd body = serverError db.
Proof. unfold createWishlist. by repeat case_match. Qed.

Lemma createWishlist_effect db actor newId rnd body :
  wishlistEffect db actor (CreateWishlist newId rnd body)
    (createWishlist db actor newId rnd body).
Proof.
  destruct (decide (status (createWishlist db actor newId rnd body).2 = 201%nat))
    as [Hst|Hst].
  - destruct (createWishlist_created _ _ _ _ _ Hst)
      as (t & d & flag & _ & _ & _ & Hfresh & Hdup & Heq).
    cbn zeta in Heq. rewrite Heq.
    eapply (effect_create _ _ _ _ newId); [done|reflexivity|done|done|].
    destruct (asksPublic body) eqn:Hasks.
    + right. exists rnd. split_and!; [done|by apply Hdup|].
      left. by exists rnd, body.
    + by left.
  - apply effect_none. by rewrite createWishlist_failed.
Qed.

Lemma applyWishlistUpdates_Some u w w' :
  applyWishlistUpdates u w = Some w' →
  owner w' = owner w ∧ collaborators w' = collaborators w
  ∧ products w' = products w ∧ totalValue w' = totalValue w
  ∧ match upd_isPublic u with
    | Some v => castBoolean v = Some (isPublic w')
    | None => isPublic w' = isPublic w
    end
  ∧ inviteCode w'
    = match upd_inviteCode u with Some c => Some c | None => inviteCode w end.
Proof.
  unfold applyWishlistUpdates. intros H.
  apply bind_Some in H as (t & _ & H). apply bind_Some in H as (d & _ & H).
  apply bind_Some in H as (flag & Hflag & H).
  injection H as <-. cbn. split_and!; try done.
  destruct (upd_isPublic u); [done|by injection Hflag].
Qed.

Lemma updateWishlist_updated db actor id rnd body :
  status (updateWishlist db actor id rnd body).2 = 200%nat →
  ∃ w w',
    Wishlists db !! id = Some w
    ∧ isOwner w actor || isAdmin w actor = true
    ∧ applyWishlistUpdates
        (mkWishlistUpdates
           (match body_title body with
            | Some t => if truthy t then Some t else None
            | None => None
            end)
           (body_description body) (body_isPublic body)
           (if asksPublic body && noInviteCode w then Some rnd else None)
           (body_tags body)) w = Some w'
    ∧ (asksPublic body && noInviteCode w = true →
       duplicateKey rnd id (Wishlists db) = false)
    ∧ updateWishlist db actor id rnd body
      = reply (saveWishlist db id w') 200 (WishlistDoc w').
Proof.
  unfold updateWishlist, Wishlist_findByIdAndUpdate.
  destruct (Wishlists db !! id) as [w|] eqn:Hw; [|done].
  destruct (negb (isOwner w actor) && negb (isAdmin w actor)) eqn:Hperm; [done|].
  cbn [mbind option_bind generateInviteCode snd].
  destruct (applyWishlistUpdates _ w) as [w'|] eqn:Happ;
    cbn [mbind option_bind]; [|done].
  cbn [upd_inviteCode].
  destruct (asksPublic body && noInviteCode w) eqn:Hgen.
  - destruct (duplicateKey rnd id (Wishlists db)) eqn:Hdup; [done|]. intros _.
    exists w, w'. rewrite Hgen. split_and!; try done.
    by destruct (isOwner w actor), (isAdmin w actor).
  - intros _. exists w, w'. rewrite Hgen. split_and!; try done.
    by destruct (isOwner w actor), (isAdmin w actor).
Qed.

Lemma updateWishlist_failed db actor id rnd body :
  status (updateWishlist db actor id rnd body).2 ≠ 200%nat →
  (updateWishlist db actor id rnd body).1 = db.
Proof.
  unfold updateWishlist, Wishlist_findByIdAndUpdate.
  destruct (Wishlists db !! id) as [w|] eqn:Hw; [|done].
  destruct (negb (isOwner w actor) && negb (isAdmin w actor)); [done|].
  cbn [mbind option_bind].
  destruct (applyWishlistUpdates _ w) as [w'|]; cbn [mbind option_bind]; [|done].
  by destruct (match upd_inviteCode _ with Some _ => _ | None => _ end).
Qed.

Lemma updateWishlist_effect db actor id rnd body :
  wishlistEffect db actor (UpdateWishlist id rnd body)
    (updateWishlist db actor id rnd body).
Proof.
  destruct (decide (status (updateWishlist db actor id rnd body).2 = 200%nat))
    as [Hst|Hst].
  - destruct (updateWishlist_updated _ _ _ _ _ Hst)
      as (w & w' & Hw & _ & Happ & Hdup & Heq).
    apply applyWishlistUpdates_Some in Happ as (Ho & Hc & _ & _ & _ & Hi).
    cbn [upd_inviteCode] in Hi. rewrite Heq.
    eapply (effect_rewrite _ _ _ _ id w w'); [done|reflexivity|done|by left|].
    destruct (asksPublic body && noInviteCode w) eqn:Hgen.
    + right. exists rnd. split_and!; [done|by apply Hdup|].
      right; left. exists rnd, body.
      by apply andb_true_iff in Hgen as [-> _].
    + by left.
  - apply effect_none. by rewrite updateWishlist_failed.
Qed.

Lemma handle_wishlistEffect db actor r : wishlistEffect db actor r (handle db actor r).
Proof.
  request_cases r.
  - by apply effect_none.
  - unfold getWishlist.
    destruct (Wishlists db !! id) as [w|]; [|by apply effect_none].
    by destruct (hasAccessPopulated db w actor) as [[]|]; apply effect_none.
  - apply createWishlist_effect.
  - apply updateWishlist_effect.
  - unfold deleteWishlist.
    destruct (Wishlists db !! id) as [w|]; [|by apply effect_none].
    destruct (negb (isOwner w actor)); [by apply effect_none|].
    by apply (effect_delete _ _ _ _ id).
  - unfold join.
    destruct (findOne code (Wishlists db)) as [[id w]|] eqn:Hfind;
      [|by apply effect_none].
    apply findOne_Some in Hfind as [Hw _].
    destruct (isAlreadyCollaborator w actor || isOwner w actor) eqn:Hin;
      [by apply effect_none|].
    apply orb_false_iff in Hin as [Hc Ho].
    eapply (effect_rewrite _ _ _ _ id w); [done|reflexivity|done| |by left].
    right. exists now. split_and!; [done| |].
    + rewrite <- isAlreadyCollaborator_true. by rewrite Hc.
    + rewrite <- isOwner_true. by rewrite Ho.
  - unfold generateInvite.
    destruct (Wishlists db !! id) as [w|] eqn:Hw; [|by apply effect_none].
    destruct (negb (isOwner w actor) && negb (isAdmin w actor));
      [by apply effect_none|].
    cbn. destruct (duplicateKey rnd id (Wishlists db)) eqn:Hdup;
      [by apply effect_none|].
    eapply (effect_rewrite _ _ _ _ id w); [done|reflexivity|done|by left|].
    right. exists rnd. split_and!; [done..|]. right; right. by exists rnd.
  - unfold getProducts.
    destruct (Wishlists db !! wid) as [w|]; [|by apply effect_none].
    by destruct (negb (hasAccess w actor)); apply effect_none.
  - destruct (status (addProduct db actor newId body).2 =? 201)%nat eqn:Hst.
    + apply Nat.eqb_eq, addProduct_created in Hst
        as (wid & w & n & _ & Hw & _ & _ & _ & ->).
      eapply (effect_rewrite _ _ _ _ wid w); [done|reflexivity|done|by left|by left].
    + apply effect_none. revert Hst. unfold addProduct.
      destruct (body_wishlistId body) as [wid|]; cbn; [|done].
      destruct (Wishlists db !! wid) as [w|]; cbn; [|done].
      destruct (canAdd w actor); cbn; [|done].
      destruct (castRequired 200 (body_name body)); [|done].
      destruct (validPrice (body_price body)); cbn; [|done].
      by case_bool_decide.
  - destruct (status (updateProduct db actor id body).2 =? 200)%nat eqn:Hst.
    + apply Nat.eqb_eq, updateProduct_updated in Hst
        as (p & w & p' & _ & Hw & _ & _ & ->).
      eapply (effect_rewrite _ _ _ _ (wishlist p) w);
        [done|reflexivity|done|by left|by left].
    + apply effect_none. revert Hst. unfold updateProduct.
      destruct (Products db !! id) as [p|]; [|done].
      destruct (Wishlists db !! wishlist p) as [w|]; [|done].
      destruct (canEdit w p actor); cbn; [|done].
      by destruct (Product_findByIdAndUpdate _ _ _) as [[??]|].
  - destruct (status (deleteProduct db actor id).2 =? 200)%nat eqn:Hst.
    + apply Nat.eqb_eq, deleteProduct_deleted in Hst as (p & w & _ & Hw & _ & ->).
      eapply (effect_rewrite _ _ _ _ (wishlist p) w);
        [done|reflexivity|done|by left|by left].
    + apply effect_none. revert Hst. unfold deleteProduct.
      destruct (Products db !! id) as [p|]; [|done].
      destruct (Wishlists db !! wishlist p) as [w|]; [|done].
      by destruct (canDelete w p actor).
  - apply effect_none. unfold addComment.
    destruct (Products db !! id) as [p|]; [|done].
    destruct (Wishlists db !! wishlist p) as [w|]; [|done].
    destruct (negb (hasAccess w actor)); [done|].
    by destruct (castRequired 500 txt).
  - apply effect_none. unfold addReaction.
    destruct (Products db !! id) as [p|]; [|done].
    destruct (Wishlists db !! wishlist p) as [w|]; [|done].
    destruct (negb (hasAccess w actor)); [done|].
    by destruct e.
  - apply effect_none. unfold removeReaction.
    by destruct (Products db !! id) as [p|].
Qed.
Lemma handle_Users db actor r : Users (handle db actor r).1 = Users db.
Proof. request_cases r; handler_branches; done. Qed.

(** ** Where an invite code comes from *)

Lemma run_snoc db trace actor r :
  run db (trace ++ [(actor, r)]) = (handle (run db trace) actor r).1.
Proof. unfold run. by rewrite fold_left_app. Qed.







(** ** One request and a stored product *)



(** ** Comments *)

Lemma elem_of_topLevel a body : a ∈ topLevel body ↔ Path a ∈ body.
Proof.
  unfold topLevel. rewrite list_elem_of_omap. split.
  - intros ([b|fs|key f] & Hk & Heq); simplify_eq. done.
  - intros Hk. by exists (Path a).
Qed.

Lemma elem_of_underSet a body :
  a ∈ underSet body ↔ ∃ fs, DollarSet fs ∈ body ∧ a ∈ fs.
Proof.
  unfold underSet. rewrite list_elem_of_join.
  setoid_rewrite list_elem_of_omap. split.
  - intros (fs & Ha & [b|fs'|key f] & Hk & Heq); simplify_eq. by exists fs.
  - intros (fs & Hk & Ha). exists fs. split; [done|]. by exists (DollarSet fs).
Qed.

Lemma elem_of_castUpdate a body :
  a ∈ castUpdate body
  ↔ (∃ fs, DollarSet fs ∈ body ∧ a ∈ fs
           ∧ ∀ b, Path b ∈ body → pathOf b ≠ pathOf a)
    ∨ Path a ∈ body.
Proof.
  unfold castUpdate.
  rewrite elem_of_app, list_elem_of_filter, elem_of_underSet, elem_of_topLevel.
  split.
  - intros [[Hno (fs & Hk & Ha)]|Hk]; [left|by right].
    exists fs. split_and!; [done..|]. intros b Hb Heq. apply Hno.
    rewrite <- Heq. apply list_elem_of_fmap_2. by apply elem_of_topLevel.
  - intros [(fs & Hk & Ha & Hno)|Hk]; [left|by right].
    split; [|by exists fs].
    intros (b & Heq & Hb%elem_of_topLevel)%list_elem_of_fmap. by apply (Hno b).
Qed.




Lemma otherKeys_none body p :
  (∀ key f, OtherKey key f ∉ body) → otherKeys p body = Some p.
Proof.
  induction body as [|k body IH]; intros Hno; [done|].
  destruct k as [a|fs|key f]; cbn.
  - apply IH. intros key f Hin. apply (Hno key f). by right.
  - apply IH. intros key f Hin. apply (Hno key f). by right.
  - exfalso. apply (Hno key f). left.
Qed.

Lemma otherKeys_deleteKey key body p :
  (∀ k f, OtherKey k f ∉ body) → otherKeys p (deleteKey key body) = Some p.
Proof.
  intros Hno. apply otherKeys_none. intros k f Hin.
  apply list_elem_of_filter in Hin as [_ Hin]. by apply (Hno k f).
Qed.




(** ** The immutable references of a product *)

Lemma assignAll_immutable fields p p' :
  assignAll p fields = Some p' →
  (∀ v, SetWishlist v ∉ fields) → (∀ v, SetAddedBy v ∉ fields) →
  wishlist p' = wishlist p ∧ addedBy p' = addedBy p.
Proof.
  revert p. induction fields as [|a fields IH]; intros p Hall Hw Ha.
  - by injection Hall as <-.
  - cbn in Hall. apply bind_Some in Hall as (p1 & H1 & Hall).
    destruct (IH p1 Hall) as [-> ->].
    { intros v Hv. apply (Hw v). by right. }
    { intros v Hv. apply (Ha v). by right. }
    destruct a; cbn in H1; repeat case_match; simplify_option_eq; try done.
    + exfalso. apply (Hw v). left.
    + exfalso. apply (Ha v). left.
Qed.

(** The two [delete] statements do what their comments say for a body
    whose keys are schema paths: such an update keeps the wishlist and
    the creator of the product. *)
Lemma updateProduct_paths_keep_references db actor id body p p' :
  (∀ fs, DollarSet fs ∉ body) → (∀ key f, OtherKey key f ∉ body) →
  Products db !! id = Some p →
  status (updateProduct db actor id body).2 = 200%nat →
  Products (updateProduct db actor id body).1 !! id = Some p' →
  wishlist p' = wishlist p ∧ addedBy p' = addedBy p.
Proof.
  intros Hplain Hother Hp Hst Hp'.
  apply updateProduct_updated in Hst as (p0 & w & p1 & Hp0 & _ & _ & Hall & Heq).
  rewrite Heq in Hp'. cbn in Hp'. rewrite lookup_insert_eq in Hp'.
  assert (p0 = p) as -> by congruence. assert (p1 = p') as -> by congruence.
  unfold applyUpdate in Hall. apply bind_Some in Hall as (p2 & Hall & Hrest).
  rewrite otherKeys_none in Hrest.
  - injection Hrest as <-.
    apply (assignAll_immutable _ _ _ Hall); intros v Hv;
      apply elem_of_castUpdate in Hv as [(fs & Hk & _)|Hk];
      unfold deleteKey in Hk;
      repeat (apply list_elem_of_filter in Hk as [? Hk]);
      first [by apply (Hplain fs) | done].
  - intros key f Hin. unfold deleteKey in Hin.
    do 2 apply list_elem_of_filter in Hin as [_ Hin]. by apply (Hother key f).
Qed.

(** C9 fails on the code.  An editor who did not add the tent sends
    update-product with the body
    [{ "$set": { "addedBy": <editor>, "wishlist": <other list> } }].
    Neither [delete updates.wishlist] nor [delete updates.addedBy]
    finds its key, the update is answered 200, and the stored product
    now names the editor as its creator and another wishlist as its
    owner. *)
Lemma update_product_set_operator_rewrites_references :
  (wishlist <$> Products sharedDb !! 20%N = Some 10%N
   ∧ addedBy <$> Products sharedDb !! 20%N = Some 1%N)
  ∧ status (handle sharedDb 2%N
              (UpdateProduct 20%N [DollarSet [SetAddedBy 2%N; SetWishlist 11%N]])).2
    = 200%nat
  ∧ wishlist
      <$> Products (handle sharedDb 2%N
                      (UpdateProduct 20%N
                         [DollarSet [SetAddedBy 2%N; SetWishlist 11%N]])).1 !! 20%N
    = Some 11%N
  ∧ addedBy
      <$> Products (handle sharedDb 2%N
                      (UpdateProduct 20%N
                         [DollarSet [SetAddedBy 2%N; SetWishlist 11%N]])).1 !! 20%N
    = Some 2%N.
Proof. by vm_compute. Qed.

(** ** The invariants hold in every database the API produces *)

Lemma uniqueInviteCodes_insert ws k w' :
  uniqueInviteCodes ws →
  (∀ c j wj, inviteCode w' = Some c → j ≠ k → ws !! j = Some wj →
             inviteCode wj ≠ Some c) →
  uniqueInviteCodes (<[k := w']> ws).
Proof.
  intros Hu Hfree a b wa wb c Ha Hb Hca Hcb.
  destruct (decide (a = k)) as [->|Hak], (decide (b = k)) as [->|Hbk]; [done|..].
  - rewrite lookup_insert_eq in Ha. rewrite lookup_insert_ne in Hb by done.
    injection Ha as <-. by destruct (Hfree c b wb).
  - rewrite lookup_insert_eq in Hb. rewrite lookup_insert_ne in Ha by done.
    injection Hb as <-. by destruct (Hfree c a wa).
  - rewrite lookup_insert_ne in Ha, Hb by done. by apply (Hu a b wa wb c).
Qed.

Lemma uniqueInviteCodes_delete ws k :
  uniqueInviteCodes ws → uniqueInviteCodes (delete k ws).
Proof.
  intros Hu a b wa wb c Ha Hb.
  apply lookup_delete_Some in Ha as [_ Ha], Hb as [_ Hb]. by apply (Hu a b wa wb c).
Qed.

Lemma handle_wellFormed db actor r :
  actor ∈ Users db → wellFormed db → wellFormed (handle db actor r).1.
Proof.
  intros Hauth [Hu Hw]. unfold wellFormed, usersResolve.
  rewrite handle_Users.
  destruct (handle_wishlistEffect db actor r)
    as [Heq|k Heq|k w' Hk Heq Ho Hc Hcode|k w w' Hk Heq Ho Hc Hcode];
    rewrite Heq.
  - done.
  - split; [by apply uniqueInviteCodes_delete|].
    intros id w Hid. apply lookup_delete_Some in Hid as [_ Hid]. by apply (Hw id).
  - split.
    + apply uniqueInviteCodes_insert; [done|].
      intros c j wj Hc' Hj Hwj.
      destruct Hcode as [Hnone|(c' & Hc'' & Hdup & _)]; [congruence|].
      assert (c' = c) as -> by congruence.
      by apply (proj1 (duplicateKey_false c k _) Hdup j wj).
    + intros id w Hid. destruct (decide (k = id)) as [->|Hne].
      * rewrite lookup_insert_eq in Hid. injection Hid as <-.
        unfold collaboratorsUnique, isCollaborator. rewrite Ho, Hc.
        split_and!; [done| |apply NoDup_nil_2|].
        -- intros c Hin. by apply elem_of_nil in Hin.
        -- intros (c & Hin & _). by apply elem_of_nil in Hin.
      * rewrite lookup_insert_ne in Hid by done. by apply (Hw id).
  - destruct (Hw k w Hk) as ([Hro Hrc] & Hnd & Hown). split.
    + apply uniqueInviteCodes_insert; [done|].
      intros c j wj Hc' Hj Hwj.
      destruct Hcode as [Hsame|(c' & Hc'' & Hdup & _)].
      * intros Hcj. apply Hj. apply (Hu j k wj w c); congruence.
      * assert (c' = c) as -> by congruence.
        by apply (proj1 (duplicateKey_false c k _) Hdup j wj).
    + intros id v Hid. destruct (decide (k = id)) as [->|Hne].
      * rewrite lookup_insert_eq in Hid. injection Hid as <-.
        unfold collaboratorsUnique, isCollaborator in *. rewrite Ho.
        destruct Hc as [->|(now & -> & Hnc & Hno)]; [done|].
        split_and!.
        -- done.
        -- intros c [Hin|Hin]%elem_of_app; [by apply Hrc|].
           by apply list_elem_of_singleton in Hin as ->.
        -- rewrite fmap_app. apply NoDup_app. split_and!; [done| |].
           ++ intros u Hin Hin'. cbn in Hin'.
              apply list_elem_of_singleton in Hin' as ->.
              apply list_elem_of_fmap in Hin as (c & Hcu & Hin).
              apply Hnc. by exists c.
           ++ cbn. apply NoDup_singleton.
        -- intros (c & [Hin|Hin]%elem_of_app & Hcu).
           ++ apply Hown. by exists c.
           ++ apply list_elem_of_singleton in Hin as ->. by cbn in Hcu.
      * rewrite lookup_insert_ne in Hid by done. by apply (Hw id).
Qed.

(** In every database that requests of registered users produce from
    an empty one the invariants hold: the hypotheses of the statements
    above are those of any database the API can be in. *)
Lemma run_wellFormed users trace :
  authenticated users trace →
  Users (run (initial users) trace) = users
  ∧ wellFormed (run (initial users) trace).
Proof.
  unfold authenticated.
  induction trace as [|[actor r] trace IH] using rev_ind; intros Hauth.
  - split; [done|]. split.
    + intros i j wi wj c Hi. cbn in Hi. by rewrite lookup_empty in Hi.
    + intros id w Hid. cbn in Hid. by rewrite lookup_empty in Hid.
  - apply Forall_app in Hauth as [Hauth Hlast].
    rewrite Forall_singleton in Hlast. cbn in Hlast.
    destruct (IH Hauth) as [Hus Hwf].
    rewrite run_snoc. split.
    + by rewrite handle_Users.
    + apply handle_wellFormed; [by rewrite Hus|done].
Qed.

(** * Further properties of the handlers *)

(** ** Requests that fail *)



(** ** What the routes never do to a wishlist *)

(** X2.  No request changes the owner of a stored wishlist, and none
    removes or rewrites a collaborator: the collaborators a wishlist had
    before a request are an initial segment of those it has after it. *)
Theorem owner_and_collaborators_are_kept
    (db : Db) (actor : ObjectId) (r : Request) (id : ObjectId) (w w' : Wishlist) :
  Wishlists db !! id = Some w →
  Wishlists (handle db actor r).1 !! id = Some w' →
  owner w' = owner w ∧ collaborators w `prefix_of` collaborators w'.
Proof.
  intros Hw Hw'.
  destruct (handle_wishlistEffect db actor r)
    as [Heq|k Heq|k v Hk Heq _ _ _|k v v' Hk Heq Ho Hc _]; rewrite Heq in Hw'.
  - by simplify_eq.
  - apply lookup_delete_Some in Hw' as [_ Hw']. by simplify_eq.
  - destruct (decide (k = id)) as [->|Hne]; [congruence|].
    rewrite lookup_insert_ne in Hw' by done. by simplify_eq.
  - destruct (decide (k = id)) as [->|Hne].
    + rewrite lookup_insert_eq in Hw'. simplify_eq. split; [done|].
      destruct Hc as [->|(now & -> & _)]; [done|]. by apply prefix_app_r.
    + rewrite lookup_insert_ne in Hw' by done. by simplify_eq.
Qed.

Lemma owner_and_collaborators_are_kept_witness :
  owner (pushCollaborator partyList 2%N 5%N) = owner partyList
  ∧ collaborators partyList
    `prefix_of` collaborators (pushCollaborator partyList 2%N 5%N).
Proof.
  apply (owner_and_collaborators_are_kept partyDb 2%N (Join (js "k3x9") 5%N) 10%N);
    reflexivity.
Defined.

Lemma collaborators_step db actor r id w' c :
  Wishlists (handle db actor r).1 !! id = Some w' → c ∈ collaborators w' →
  collab_role c = editor
  ∨ ∃ w, Wishlists db !! id = Some w ∧ c ∈ collaborators w.
Proof.
  intros Hw' Hc.
  destruct (handle_wishlistEffect db actor r)
    as [Heq|k Heq|k v Hk Heq _ Hnil _|k v v' Hk Heq _ Hcs _]; rewrite Heq in Hw'.
  - right. by exists w'.
  - apply lookup_delete_Some in Hw' as [_ Hw']. right. by exists w'.
  - destruct (decide (k = id)) as [->|Hne].
    + rewrite lookup_insert_eq in Hw'. simplify_eq. rewrite Hnil in Hc.
      by apply elem_of_nil in Hc.
    + rewrite lookup_insert_ne in Hw' by done. right. by exists w'.
  - destruct (decide (k = id)) as [->|Hne].
    + rewrite lookup_insert_eq in Hw'. simplify_eq.
      destruct Hcs as [Hsame|(now & Happ & _)].
      * right. exists v. by rewrite <- Hsame.
      * rewrite Happ in Hc. apply elem_of_app in Hc as [Hc|Hc].
        -- right. by exists v.
        -- left. by apply list_elem_of_singleton in Hc as ->.
    + rewrite lookup_insert_ne in Hw' by done. right. by exists w'.
Qed.

(** X3.  In a database that the API has built from an empty one every
    collaborator has role editor: no route enrols a viewer or an admin.
    There the owner alone passes the checks of update-wishlist and
    generate-invite, and the owner and the creator alone pass the check
    of delete-product. *)
Theorem only_editors_are_enrolled
    (users : gset ObjectId) (trace : list (ObjectId * Request))
    (id : ObjectId) (w : Wishlist) :
  Wishlists (run (initial users) trace) !! id = Some w →
  (∀ c, c ∈ collaborators w → collab_role c = editor)
  ∧ (∀ actor, owner w ≠ actor →
       (∀ rnd body,
          updateWishlist (run (initial users) trace) actor id rnd body
          = reply (run (initial users) trace) 403 (Message "Access denied"))
       ∧ (∀ rnd,
          generateInvite (run (initial users) trace) actor id rnd
          = reply (run (initial users) trace) 403 (Message "Access denied"))
       ∧ (∀ pid p,
          Products (run (initial users) trace) !! pid = Some p →
          wishlist p = id → addedBy p ≠ actor →
          deleteProduct (run (initial users) trace) actor pid
          = reply (run (initial users) trace) 403 (Message "Access denied"))).
Proof.
  intros Hw.
  assert (Hroles : ∀ c, c ∈ collaborators w → collab_role c = editor).
  { revert id w Hw.
    induction trace as [|[actor r] trace IH] using rev_ind; intros id w Hw c Hc.
    - cbn in Hw. by rewrite lookup_empty in Hw.
    - rewrite run_snoc in Hw.
      destruct (collaborators_step _ _ _ _ _ _ Hw Hc) as [?|(w0 & Hw0 & Hc0)];
        [done|]. by apply (IH id w0). }
  split; [done|]. intros actor Hno.
  assert (Hadmin : isAdmin w actor = false).
  { apply not_true_is_false. intros (c & Hc & _ & Hr)%isAdmin_true.
    by rewrite (Hroles c Hc) in Hr. }
  assert (Howner : isOwner w actor = false).
  { apply not_true_is_false. by intros ?%isOwner_true. }
  split_and!.
  - intros rnd body. unfold updateWishlist. by rewrite Hw, Howner, Hadmin.
  - intros rnd. unfold generateInvite. by rewrite Hw, Howner, Hadmin.
  - intros pid p Hp <- Hna. apply (deleteProduct_denied _ _ _ p w); [done..|].
    intros [?|[?|(c & Hc & _ & Hr)]]; [done..|]. by rewrite (Hroles c Hc) in Hr.
Qed.

Lemma only_editors_are_enrolled_witness :
  generateInvite (run (initial {[1%N; 2%N]}) joinTrace) 2%N 10%N (js "zz9")
  = reply (run (initial {[1%N; 2%N]}) joinTrace) 403 (Message "Access denied").
Proof.
  destruct (only_editors_are_enrolled {[1%N; 2%N]} joinTrace 10%N
              (pushCollaborator partyList 2%N 5%N) eq_refl) as [_ Hown].
  destruct (Hown 2%N) as (_ & Hgen & _); [done|]. apply Hgen.
Defined.

(** ** Invariants of the databases the API builds *)

(** X4.  In a database that requests of registered users have built
    from an empty one: no two wishlists carry the same invite code; the
    owner and the collaborators of a wishlist are registered users; no
    user is enrolled twice in a wishlist; and the owner of a wishlist is
    not among its collaborators. *)
Theorem reachable_databases_are_consistent
    (users : gset ObjectId) (trace : list (ObjectId * Request)) :
  authenticated users trace →
  uniqueInviteCodes (Wishlists (run (initial users) trace))
  ∧ ∀ id w, Wishlists (run (initial users) trace) !! id = Some w →
      owner w ∈ users
      ∧ (∀ c, c ∈ collaborators w → collab_user c ∈ users)
      ∧ NoDup (collab_user <$> collaborators w)
      ∧ owner w ∉ collab_user <$> collaborators w.
Proof.
  intros Hauth. destruct (run_wellFormed users trace Hauth) as (Hus & Hu & Hw).
  split; [done|]. intros id w Hid.
  destruct (Hw id w Hid) as ([Ho Hc] & Hnd & Hown). rewrite Hus in Ho, Hc.
  split_and!; [done..|].
  intros (c & Heq & Hin)%list_elem_of_fmap. apply Hown. by exists c.
Qed.

Lemma reachable_databases_are_consistent_witness :
  uniqueInviteCodes (Wishlists (run (initial {[1%N; 2%N]}) joinTrace)).
Proof.
  apply (reachable_databases_are_consistent {[1%N; 2%N]} joinTrace).
  unfold authenticated, joinTrace. repeat constructor; cbn; set_solver.
Defined.

Lemma handle_wishlistAfter db actor r k w' :
  Wishlists (handle db actor r).1 !! k = Some w' → wishlistAfter db actor r k w'.
Proof.
  intros Hw'.
  pose proof (after_unchanged db actor r k w') as Hsame.
  request_cases r.
  - by apply Hsame.
  - apply Hsame. revert Hw'. unfold getWishlist. by repeat case_match.
  - destruct (decide (status (createWishlist db actor newId rnd body).2 = 201%nat))
      as [Hst|Hst].
    + destruct (createWishlist_created _ _ _ _ _ Hst)
        as (t & d & flag & _ & _ & Hflag & Hfresh & _ & Heq).
      cbn zeta in Heq. rewrite Heq in Hw'. cbn in Hw'. rewrite lookup_insert in Hw'.
      case_decide as Hk; [|by apply Hsame]. injection Hw' as <-. subst newId.
      by apply (after_create _ _ _ _ _ rnd body).
    + apply Hsame. by rewrite createWishlist_failed in Hw'.
  - destruct (decide (status (updateWishlist db actor id rnd body).2 = 200%nat))
      as [Hst|Hst].
    + destruct (updateWishlist_updated _ _ _ _ _ Hst)
        as (w & v & Hw & Hmay & Happ & _ & Heq).
      rewrite Heq in Hw'. cbn in Hw'. rewrite lookup_insert in Hw'.
      case_decide as Hk; [|by apply Hsame]. injection Hw' as <-. subst id.
      apply applyWishlistUpdates_Some in Happ as (Ho & Hc & Hp & Ht & Hflag & Hi).
      cbn [upd_isPublic upd_inviteCode] in Hflag, Hi.
      apply (after_update _ _ _ _ _ w rnd body); try done.
      rewrite Hi. by destruct (asksPublic body && noInviteCode w).
    + apply Hsame. by rewrite updateWishlist_failed in Hw'.
  - revert Hw'. unfold deleteWishlist. repeat case_match; cbn; try apply Hsame.
    intros [_ Hdel]%lookup_delete_Some. by apply Hsame.
  - revert Hw'. unfold join.
    destruct (findOne code (Wishlists db)) as [[j w]|] eqn:Hf; [|apply Hsame].
    apply findOne_Some in Hf as [Hj Hc].
    destruct (isAlreadyCollaborator w actor || isOwner w actor) eqn:Hin;
      [apply Hsame|].
    apply orb_false_iff in Hin as [??].
    cbn. rewrite lookup_insert. case_decide as Hk; [|apply Hsame].
    intros [= <-]. subst j. by apply (after_join _ _ _ _ _ w code now).
  - revert Hw'. unfold generateInvite.
    destruct (Wishlists db !! id) as [w|] eqn:Hw; [|apply Hsame].
    destruct (negb (isOwner w actor) && negb (isAdmin w actor)) eqn:Hperm;
      [apply Hsame|].
    cbn. destruct (duplicateKey rnd id (Wishlists db)); [apply Hsame|].
    cbn. rewrite lookup_insert. case_decide as Hk; [|apply Hsame].
    intros [= <-]. subst id. apply (after_generate _ _ _ _ _ w rnd); try done.
    by destruct (isOwner w actor), (isAdmin w actor).
  - apply Hsame. revert Hw'. unfold getProducts. by repeat case_match.
  - destruct (status (addProduct db actor newId body).2 =? 201)%nat eqn:Hst.
    + apply Nat.eqb_eq, addProduct_created in Hst
        as (wid & w & n & _ & Hw & _ & _ & _ & Heq).
      rewrite Heq in Hw'. cbn in Hw'. rewrite lookup_insert in Hw'.
      case_decide as Hk; [|by apply Hsame]. simplify_eq.
      apply (after_product _ _ _ _ _ w); try done.
      cbn [handle]. rewrite Heq, calculateTotalValue_total.
      by apply referencedTotal_ext.
    + apply Hsame. revert Hst Hw'. unfold addProduct.
      by repeat case_match.
  - destruct (status (updateProduct db actor id body).2 =? 200)%nat eqn:Hst.
    + apply Nat.eqb_eq, updateProduct_updated in Hst
        as (p & w & p' & _ & Hw & _ & _ & Heq).
      rewrite Heq in Hw'. cbn in Hw'. rewrite lookup_insert in Hw'.
      case_decide as Hk; [|by apply Hsame]. simplify_eq.
      apply (after_product _ _ _ _ _ w); try done.
      cbn [handle]. rewrite Heq, calculateTotalValue_total.
      by apply referencedTotal_ext.
    + apply Hsame. revert Hst Hw'. unfold updateProduct.
      by repeat case_match.
  - destruct (status (deleteProduct db actor id).2 =? 200)%nat eqn:Hst.
    + apply Nat.eqb_eq, deleteProduct_deleted in Hst
        as (p & w & _ & Hw & _ & Heq).
      rewrite Heq in Hw'. cbn in Hw'. rewrite lookup_insert in Hw'.
      case_decide as Hk; [|by apply Hsame]. simplify_eq.
      apply (after_product _ _ _ _ _ w); try done.
      cbn [handle]. rewrite Heq, calculateTotalValue_total.
      apply referencedTotal_ext; [done|].
      intros i Hi. cbn in Hi. apply list_elem_of_filter in Hi as [Hne _].
      symmetry. by apply lookup_delete_ne.
    + apply Hsame. revert Hst Hw'. unfold deleteProduct.
      by repeat case_match.
  - apply Hsame. revert Hw'. unfold addComment. by repeat case_match.
  - apply Hsame. revert Hw'. unfold addReaction. by repeat case_match.
  - apply Hsame. revert Hw'. unfold removeReaction. by repeat case_match.
Qed.

Lemma castBoolean_true v : castBoolean v = Some (Some true) → truthyJson v = true.
Proof.
  destruct v as [|b|x|s|]; cbn; try done.
  - by intros [= ->].
  - destruct (negb _); [done|]. by destruct (PrimFloat.eqb x 0).
  - case_bool_decide as Hs.
    + intros _. apply elem_of_cons in Hs as [->|Hs]; [done|].
      apply elem_of_cons in Hs as [->|Hs]; [done|].
      by apply list_elem_of_singleton in Hs as ->.
    + by case_bool_decide.
Qed.

(** X5.  In a database that the API has built from an empty one every
    public wishlist carries an invite code. *)
Theorem public_wishlists_carry_a_code
    (users : gset ObjectId) (trace : list (ObjectId * Request))
    (id : ObjectId) (w : Wishlist) :
  Wishlists (run (initial users) trace) !! id = Some w →
  isPublic w = Some true → is_Some (inviteCode w).
Proof.
  revert id w.
  induction trace as [|[actor r] trace IH] using rev_ind; intros id w Hw Hpub.
  - cbn in Hw. by rewrite lookup_empty in Hw.
  - rewrite run_snoc in Hw.
    destruct (handle_wishlistAfter _ _ _ _ _ Hw)
      as [H0|rnd body _ _ _ _ _ _ Hflag Hc|w0 rnd body _ H0 _ _ _ _ _ Hflag Hc
         |w0 code now _ H0 _ _ _ ->|w0 rnd _ H0 _ ->
         |w0 H0 _ _ Hp Hc _ _ _ _].
    + by apply (IH id w).
    + rewrite Hpub in Hflag. rewrite Hc.
      assert (asksPublic body = true) as ->; [|by eexists].
      unfold isPublicOrFalse in Hflag. unfold asksPublic.
      destruct (body_isPublic body) as [v|]; [|done].
      destruct (truthyJson v); done.
    + rewrite Hc. destruct (body_isPublic body) as [v|] eqn:Hb.
      * rewrite Hpub in Hflag.
        assert (asksPublic body = true) as ->.
        { unfold asksPublic. rewrite Hb. by apply castBoolean_true. }
        unfold noInviteCode. cbn.
        destruct (inviteCode w0) as [c|]; [destruct (negb (truthy c))|];
          by eexists.
      * unfold asksPublic. rewrite Hb. cbn. apply (IH id w0 H0). congruence.
    + by apply (IH id w0).
    + done.
    + rewrite Hc. apply (IH id w0 H0). congruence.
Qed.

Lemma public_wishlists_carry_a_code_witness :
  is_Some (inviteCode (pushCollaborator partyList 2%N 5%N)).
Proof.
  by apply (public_wishlists_carry_a_code {[1%N; 2%N]} joinTrace 10%N).
Defined.

(** ** Updating a wishlist and its invite code *)

Lemma mayMutate_true w actor :
  isOwner w actor || isAdmin w actor = true
  ↔ owner w = actor ∨ collaboratesAs admin w actor.
Proof. by rewrite orb_true_iff, isOwner_true, isAdmin_true. Qed.

Lemma mayMutate_check w actor :
  negb (isOwner w actor) && negb (isAdmin w actor)
  = negb (isOwner w actor || isAdmin w actor).
Proof. by destruct (isOwner w actor), (isAdmin w actor). Qed.

(** X7.  Update-wishlist and generate-invite are open to the owner and
    to collaborators with role admin and to nobody else: an editor, a
    viewer or a stranger is answered 403 and nothing changes, also on a
    public wishlist. *)
Theorem wishlist_mutation_owner_or_admin
    (db : Db) (actor id : ObjectId) (w : Wishlist) :
  Wishlists db !! id = Some w →
  (owner w = actor ∨ collaboratesAs admin w actor →
     (∀ rnd body, status (updateWishlist db actor id rnd body).2 ≠ 403%nat)
     ∧ (∀ rnd, status (generateInvite db actor id rnd).2 ≠ 403%nat))
  ∧ (¬ (owner w = actor ∨ collaboratesAs admin w actor) →
     (∀ rnd body,
        updateWishlist db actor id rnd body
        = reply db 403 (Message "Access denied"))
     ∧ (∀ rnd,
        generateInvite db actor id rnd = reply db 403 (Message "Access denied"))).
Proof.
  intros Hw. split.
  - intros Hmay%mayMutate_true. split.
    + intros rnd body. unfold updateWishlist.
      rewrite Hw, mayMutate_check, Hmay. cbn [negb].
      by destruct (Wishlist_findByIdAndUpdate _ _ _) as [[??]|].
    + intros rnd. unfold generateInvite.
      rewrite Hw, mayMutate_check, Hmay. cbn.
      by destruct (duplicateKey rnd id (Wishlists db)).
  - intros Hmay. rewrite <- mayMutate_true in Hmay.
    apply not_true_is_false in Hmay. split.
    + intros rnd body. unfold updateWishlist.
      by rewrite Hw, mayMutate_check, Hmay.
    + intros rnd. unfold generateInvite. by rewrite Hw, mayMutate_check, Hmay.
Qed.

Lemma wishlist_mutation_owner_or_admin_witness :
  updateWishlist sharedDb 2%N 10%N (js "x") (mkWishlistBody (Some (js "Mine")) None None None)
  = reply sharedDb 403 (Message "Access denied")
  ∧ status (generateInvite sharedDb 3%N 10%N (js "x")).2 ≠ 403%nat.
Proof.
  destruct (wishlist_mutation_owner_or_admin sharedDb 2%N 10%N sharedList eq_refl)
    as [_ Hdeny].
  destruct (wishlist_mutation_owner_or_admin sharedDb 3%N 10%N sharedList eq_refl)
    as [Hmay _].
  split.
  - apply Hdeny. intros [H|(c & Hc & Hu & Hr)]; [done|].
    cbn in Hc. apply elem_of_cons in Hc as [->|Hc]; [done|].
    apply list_elem_of_singleton in Hc as ->. done.
  - apply Hmay. right. exists (mkCollaborator 3%N admin 8%N).
    split_and!; [right; left|done..].
Defined.

Lemma updateWishlist_rejected db actor id rnd body w :
  Wishlists db !! id = Some w →
  applyWishlistUpdates
    (mkWishlistUpdates
       (match body_title body with
        | Some t => if truthy t then Some t else None
        | None => None
        end)
       (body_description body) (body_isPublic body)
       (if asksPublic body && noInviteCode w then Some rnd else None)
       (body_tags body)) w = None →
  status (updateWishlist db actor id rnd body).2 ≠ 200%nat
  ∧ (updateWishlist db actor id rnd body).1 = db.
Proof.
  intros Hw Hnone.
  assert (Hst : status (updateWishlist db actor id rnd body).2 ≠ 200%nat).
  { intros Hst. destruct (updateWishlist_updated _ _ _ _ _ Hst)
      as (w0 & w' & Hw0 & _ & Happ & _).
    assert (w0 = w) as -> by congruence. congruence. }
  split; [done|]. by apply updateWishlist_failed.
Qed.

(** X8.  What a successful update-wishlist stores: owner,
    collaborators, product references and total value are those of
    before; an empty title in the body is ignored while any other title
    is stored trimmed; a description is stored trimmed, the empty one
    included; the visibility is what Mongoose's cast to [Boolean] makes
    of the value the body names; and the invite code is kept unless the
    body's [isPublic] is truthy while the wishlist has no code, in which
    case the fresh code is stored whatever the cast makes of the value.
    With a title of white space only, a description of more than 500
    code units once trimmed, or an [isPublic] that the cast refuses, the
    request is not answered 200 and nothing of the body is stored. *)
Theorem update_wishlist_effect
    (db : Db) (actor id : ObjectId) (rnd : JsString) (body : WishlistBody)
    (w : Wishlist) :
  Wishlists db !! id = Some w →
  (status (updateWishlist db actor id rnd body).2 = 200%nat →
   ∃ w', (updateWishlist db actor id rnd body).1 = saveWishlist db id w'
         ∧ owner w' = owner w ∧ collaborators w' = collaborators w
         ∧ products w' = products w ∧ totalValue w' = totalValue w
         ∧ title w'
           = match body_title body with
             | Some t => if truthy t then trim t else title w
             | None => title w
             end
         ∧ description w'
           = match body_description body with
             | Some d => Some (trim d)
             | None => description w
             end
         ∧ tags w' = match body_tags body with
                     | Some ts => trim <$> ts
                     | None => tags w
                     end
         ∧ match body_isPublic body with
           | Some v => castBoolean v = Some (isPublic w')
           | None => isPublic w' = isPublic w
           end
         ∧ inviteCode w'
           = (if asksPublic body && noInviteCode w then Some rnd else inviteCode w))
  ∧ (∀ t, body_title body = Some t → truthy t = true → trim t = [] →
          status (updateWishlist db actor id rnd body).2 ≠ 200%nat
          ∧ (updateWishlist db actor id rnd body).1 = db)
  ∧ (∀ d, body_description body = Some d →
          (500 < List.length (trim d))%nat →
          status (updateWishlist db actor id rnd body).2 ≠ 200%nat
          ∧ (updateWishlist db actor id rnd body).1 = db)
  ∧ (∀ v, body_isPublic body = Some v → castBoolean v = None →
          status (updateWishlist db actor id rnd body).2 ≠ 200%nat
          ∧ (updateWishlist db actor id rnd body).1 = db).
Proof.
  intros Hw. split_and!.
  - intros Hst.
    destruct (updateWishlist_updated _ _ _ _ _ Hst)
      as (w0 & w' & Hw0 & _ & Happ & _ & Heq).
    assert (w0 = w) as -> by congruence.
    exists w'. split; [by rewrite Heq|].
    pose proof (applyWishlistUpdates_Some _ _ _ Happ)
      as (Ho & Hc & Hp & Ht & Hflag & Hi).
    cbn [upd_isPublic upd_inviteCode] in Hflag, Hi.
    unfold applyWishlistUpdates in Happ.
    apply bind_Some in Happ as (t & Htitle & Happ).
    apply bind_Some in Happ as (d & Hd & Happ).
    apply bind_Some in Happ as (flag & _ & Happ). injection Happ as <-.
    cbn in Htitle, Hd |- *. split_and!; try done.
    + destruct (body_title body) as [raw|]; [|by simplify_eq].
      destruct (truthy raw); [|by simplify_eq].
      unfold castRequired, castString in Htitle. by repeat case_match; simplify_eq.
    + destruct (body_description body) as [raw|]; [|by simplify_eq].
      unfold castString in Hd. by repeat case_match; simplify_option_eq.
    + by destruct (asksPublic body && noInviteCode w).
  - intros t Ht Htruthy Hblank. apply (updateWishlist_rejected _ _ _ _ _ w Hw).
    unfold applyWishlistUpdates. cbn. rewrite Ht, Htruthy. cbn.
    unfold castString. rewrite Hblank. by case_match.
  - intros d Hd Hlong. apply (updateWishlist_rejected _ _ _ _ _ w Hw).
    unfold applyWishlistUpdates. cbn. rewrite Hd.
    unfold castString. rewrite (proj2 (Nat.leb_gt _ _) Hlong). cbn.
    match goal with |- (?o ≫= _) = None => by destruct o end.
  - intros v Hv Hcast. apply (updateWishlist_rejected _ _ _ _ _ w Hw).
    unfold applyWishlistUpdates. cbn. rewrite Hv, Hcast. cbn.
    match goal with |- (?o ≫= _) = None => destruct o; [|done] end. cbn.
    match goal with |- (?o ≫= _) = None => by destruct o end.
Qed.

Lemma update_wishlist_effect_witness :
  (status (updateWishlist sharedDb 1%N 10%N (js "x")
             (mkWishlistBody (Some (js "   ")) (Some (js "new")) None None)).2
   ≠ 200%nat
   ∧ (updateWishlist sharedDb 1%N 10%N (js "x")
        (mkWishlistBody (Some (js "   ")) (Some (js "new")) None None)).1 = sharedDb)
  ∧ (status (updateWishlist sharedDb 1%N 10%N (js "x")
               (mkWishlistBody (Some [160%N; 8195%N]) None None None)).2 ≠ 200%nat
     ∧ (updateWishlist sharedDb 1%N 10%N (js "x")
          (mkWishlistBody (Some [160%N; 8195%N]) None None None)).1 = sharedDb).
Proof.
  split.
  - destruct (update_wishlist_effect sharedDb 1%N 10%N (js "x")
                (mkWishlistBody (Some (js "   ")) (Some (js "new")) None None)
                sharedList eq_refl) as (_ & Htitle & _).
    by apply (Htitle (js "   ")).
  - destruct (update_wishlist_effect sharedDb 1%N 10%N (js "x")
                (mkWishlistBody (Some [160%N; 8195%N]) None None None)
                sharedList eq_refl) as (_ & Htitle & _).
    by apply (Htitle [160%N; 8195%N]).
Defined.

Lemma join_resolves db actor code now id w :
  uniqueInviteCodes (Wishlists db) →
  Wishlists db !! id = Some w → inviteCode w = Some code →
  join db actor code now
  = if isAlreadyCollaborator w actor || isOwner w actor
    then reply db 400 (Message "You are already part of this wishlist")
    else reply (saveWishlist db id (pushCollaborator w actor now)) 200
           (JoinedDoc "Successfully joined wishlist" (pushCollaborator w actor now)).
Proof.
  intros Hu Hw Hc. unfold join. by rewrite (findOne_unique code _ id w).
Qed.

Lemma join_unknown db actor code now :
  (∀ id w, Wishlists db !! id = Some w → inviteCode w ≠ Some code) →
  join db actor code now = reply db 404 (Message "Invalid invite code").
Proof.
  intros Hnone. unfold join.
  by rewrite (proj2 (findOne_None code (Wishlists db)) Hnone).
Qed.

Lemma not_member w actor :
  owner w ≠ actor → ¬ isCollaborator w actor →
  isAlreadyCollaborator w actor || isOwner w actor = false.
Proof.
  intros Ho Hc. apply orb_false_iff. split; apply not_true_is_false.
  - by rewrite isAlreadyCollaborator_true.
  - by rewrite isOwner_true.
Qed.

(** X9.  Generate-invite replaces the invite code.  When another
    wishlist already carries the new code the request fails with 500 and
    nothing changes.  Otherwise the answer is the new code; from then on
    a join with the old code finds no wishlist (404), and a join with
    the new code enrols any user who is not yet part of the wishlist. *)
Theorem generate_invite_rotates_the_code
    (db : Db) (actor id : ObjectId) (rnd : JsString) (w : Wishlist) :
  uniqueInviteCodes (Wishlists db) →
  Wishlists db !! id = Some w →
  owner w = actor ∨ collaboratesAs admin w actor →
  ((∃ j v, j ≠ id ∧ Wishlists db !! j = Some v ∧ inviteCode v = Some rnd) →
     generateInvite db actor id rnd = serverError db)
  ∧ ((∀ j v, j ≠ id → Wishlists db !! j = Some v → inviteCode v ≠ Some rnd) →
     generateInvite db actor id rnd
     = reply (saveWishlist db id (generateInviteCode rnd w).1) 200
         (InviteCodeDoc rnd)
     ∧ (∀ old a now,
          inviteCode w = Some old → old ≠ rnd →
          join (generateInvite db actor id rnd).1 a old now
          = reply (generateInvite db actor id rnd).1 404
              (Message "Invalid invite code"))
     ∧ (∀ a now,
          owner w ≠ a → ¬ isCollaborator w a →
          status (join (generateInvite db actor id rnd).1 a rnd now).2 = 200%nat)).
Proof.
  intros Hu Hw Hmay%mayMutate_true.
  assert (Hgo : generateInvite db actor id rnd
                = if duplicateKey rnd id (Wishlists db) then serverError db
                  else reply (saveWishlist db id (generateInviteCode rnd w).1)
                         200 (InviteCodeDoc rnd)).
  { unfold generateInvite. by rewrite Hw, mayMutate_check, Hmay. }
  split.
  - intros (j & v & Hj & Hv & Hc). rewrite Hgo.
    destruct (duplicateKey rnd id (Wishlists db)) eqn:Hdup; [done|].
    by destruct (proj1 (duplicateKey_false rnd id _) Hdup j v).
  - intros Hfree. rewrite Hgo, (proj2 (duplicateKey_false rnd id _) Hfree).
    assert (Hu' : uniqueInviteCodes
                    (Wishlists (saveWishlist db id (generateInviteCode rnd w).1))).
    { cbn. apply uniqueInviteCodes_insert; [done|].
      intros c j wj [= <-] Hj Hwj. by apply (Hfree j wj). }
    split_and!; [done|..]; cbn [reply fst].
    + intros old a now Hold Hne. apply join_unknown.
      intros j v Hv Hc. cbn in Hv. rewrite lookup_insert in Hv.
      case_decide as Hj; simplify_eq.
      * cbn in Hc. congruence.
      * by assert (j = id) by (by apply (Hu j id v w old)).
    + intros a now Ho Hc.
      rewrite (join_resolves _ a rnd now id (generateInviteCode rnd w).1 Hu');
        [|cbn; apply lookup_insert_eq|done].
      by rewrite (not_member _ a).
Qed.

Lemma generate_invite_rotates_the_code_witness :
  generateInvite partyDb 1%N 10%N (js "n3w")
  = reply (saveWishlist partyDb 10%N (generateInviteCode (js "n3w") partyList).1) 200
      (InviteCodeDoc (js "n3w")).
Proof.
  assert (Hu : uniqueInviteCodes (Wishlists partyDb)).
  { intros i j wi wj c Hi Hj _ _. cbn in Hi, Hj.
    apply lookup_singleton_Some in Hi as [<- _].
    by apply lookup_singleton_Some in Hj as [<- _]. }
  destruct (generate_invite_rotates_the_code partyDb 1%N 10%N (js "n3w") partyList Hu
              eq_refl (or_introl eq_refl)) as [_ Hfree].
  apply Hfree. intros j v Hj Hv. cbn in Hv.
  apply lookup_singleton_Some in Hv as [? _]. congruence.
Defined.

(** X10.  An invite code is not used up by a join: two different users
    who are not yet part of the wishlist join one after the other with
    the same code, both are answered 200, and afterwards the wishlist
    lists both, in that order, after its earlier collaborators and
    still carries the code. *)
Theorem invite_code_is_reusable
    (db : Db) (a b : ObjectId) (code : JsString) (now1 now2 : Time)
    (id : ObjectId) (w : Wishlist) :
  uniqueInviteCodes (Wishlists db) →
  Wishlists db !! id = Some w → inviteCode w = Some code →
  a ≠ b →
  owner w ≠ a → ¬ isCollaborator w a →
  owner w ≠ b → ¬ isCollaborator w b →
  status (join db a code now1).2 = 200%nat
  ∧ status (join (join db a code now1).1 b code now2).2 = 200%nat
  ∧ ∃ w2, Wishlists (join (join db a code now1).1 b code now2).1 !! id = Some w2
          ∧ collaborators w2
            = (collaborators w
               ++ [mkCollaborator a editor now1; mkCollaborator b editor now2])%list
          ∧ inviteCode w2 = Some code.
Proof.
  intros Hu Hw Hc Hab Hoa Hca Hob Hcb.
  rewrite (join_resolves db a code now1 id w Hu Hw Hc), (not_member w a) by done.
  cbn [reply fst snd status].
  assert (Hu1 : uniqueInviteCodes
                  (Wishlists (saveWishlist db id (pushCollaborator w a now1)))).
  { cbn. by apply (uniqueInviteCodes_same_code _ id w). }
  rewrite (join_resolves _ b code now2 id (pushCollaborator w a now1) Hu1);
    [|cbn; apply lookup_insert_eq|done].
  rewrite (not_member _ b); [|done|].
  - split_and!; [done..|]. eexists. split; [cbn; apply lookup_insert_eq|].
    cbn. by rewrite <- app_assoc.
  - intros (c & [Hin|Hin]%elem_of_app & Hcu).
    + apply Hcb. by exists c.
    + apply list_elem_of_singleton in Hin as ->. by cbn in Hcu.
Qed.

Lemma invite_code_is_reusable_witness :
  status (join (join partyDb 2%N (js "k3x9") 5%N).1 3%N (js "k3x9") 6%N).2 = 200%nat.
Proof.
  assert (Hu : uniqueInviteCodes (Wishlists partyDb)).
  { intros i j wi wj c Hi Hj _ _. cbn in Hi, Hj.
    apply lookup_singleton_Some in Hi as [<- _].
    by apply lookup_singleton_Some in Hj as [<- _]. }
  assert (Hno : ∀ u, ¬ isCollaborator partyList u).
  { intros u (c & Hc & _). cbn in Hc. by apply elem_of_nil in Hc. }
  by destruct (invite_code_is_reusable partyDb 2%N 3%N (js "k3x9") 5%N 6%N 10%N
                 partyList Hu eq_refl eq_refl) as (_ & H2 & _).
Defined.

(** ** After a deletion *)

(** X11.  Once its owner has deleted a wishlist, every route that names
    the wishlist answers 404 "Wishlist not found", every route that
    names one of its former products answers 404 "Product not found",
    and, invite codes being unique, a join with its invite code answers
    404 "Invalid invite code". *)
Theorem deleted_wishlist_is_gone
    (db : Db) (actor id : ObjectId) (w : Wishlist) :
  Wishlists db !! id = Some w →
  owner w = actor →
  (∀ a rnd body newId pbody,
     body_wishlistId pbody = Some id →
     getWishlist (deleteWishlist db actor id).1 a id
     = reply (deleteWishlist db actor id).1 404 (Message "Wishlist not found")
     ∧ getProducts (deleteWishlist db actor id).1 a id
       = reply (deleteWishlist db actor id).1 404 (Message "Wishlist not found")
     ∧ updateWishlist (deleteWishlist db actor id).1 a id rnd body
       = reply (deleteWishlist db actor id).1 404 (Message "Wishlist not found")
     ∧ generateInvite (deleteWishlist db actor id).1 a id rnd
       = reply (deleteWishlist db actor id).1 404 (Message "Wishlist not found")
     ∧ deleteWishlist (deleteWishlist db actor id).1 a id
       = reply (deleteWishlist db actor id).1 404 (Message "Wishlist not found")
     ∧ addProduct (deleteWishlist db actor id).1 a newId pbody
       = reply (deleteWishlist db actor id).1 404 (Message "Wishlist not found"))
  ∧ (∀ pid p a body txt e now,
       Products db !! pid = Some p → wishlist p = id →
       updateProduct (deleteWishlist db actor id).1 a pid body
       = reply (deleteWishlist db actor id).1 404 (Message "Product not found")
       ∧ deleteProduct (deleteWishlist db actor id).1 a pid
         = reply (deleteWishlist db actor id).1 404 (Message "Product not found")
       ∧ addComment (deleteWishlist db actor id).1 a pid txt now
         = reply (deleteWishlist db actor id).1 404 (Message "Product not found")
       ∧ addReaction (deleteWishlist db actor id).1 a pid e now
         = reply (deleteWishlist db actor id).1 404 (Message "Product not found")
       ∧ removeReaction (deleteWishlist db actor id).1 a pid
         = reply (deleteWishlist db actor id).1 404 (Message "Product not found"))
  ∧ (uniqueInviteCodes (Wishlists db) →
     ∀ code a now,
       inviteCode w = Some code →
       join (deleteWishlist db actor id).1 a code now
       = reply (deleteWishlist db actor id).1 404 (Message "Invalid invite code")).
Proof.
  intros Hw Ho.
  assert (Heq : deleteWishlist db actor id
                = reply (setWishlists
                           (setProducts db (Product_deleteMany id (Products db)))
                           (delete id (Wishlists db)))
                    200 (Message "Wishlist deleted successfully")).
  { unfold deleteWishlist, isOwner. rewrite Hw.
    by rewrite bool_decide_eq_true_2. }
  rewrite Heq. cbn [reply fst].
  set (db' := setWishlists _ _).
  assert (Hgone : Wishlists db' !! id = None) by apply lookup_delete_eq.
  split_and!.
  - intros a rnd body newId pbody Hpb.
    unfold getWishlist, getProducts, updateWishlist, generateInvite,
      deleteWishlist, addProduct.
    rewrite Hpb. cbn [mbind option_bind]. by rewrite Hgone.
  - intros pid p a body txt e now Hp Hpw.
    assert (Hnone : Products db' !! pid = None).
    { cbn. unfold Product_deleteMany. apply map_lookup_filter_None. right.
      intros p0 Hp0. cbn. intros Hne. apply Hne. congruence. }
    unfold updateProduct, deleteProduct, addComment, addReaction, removeReaction.
    by rewrite Hnone.
  - intros Hu code a now Hc. apply join_unknown.
    intros j v Hv Hcv. cbn in Hv. apply lookup_delete_Some in Hv as [Hne Hv].
    apply Hne. by apply (Hu id j w v code).
Qed.

Lemma deleted_wishlist_is_gone_witness :
  deleteProduct (deleteWishlist sharedDb 1%N 10%N).1 1%N 20%N
  = reply (deleteWishlist sharedDb 1%N 10%N).1 404 (Message "Product not found").
Proof.
  destruct (deleted_wishlist_is_gone sharedDb 1%N 10%N sharedList eq_refl eq_refl)
    as (_ & Hproducts & _).
  by destruct (Hproducts 20%N tent 1%N [] None None 0%N eq_refl eq_refl)
    as (_ & Hdel & _).
Defined.

(** X12.  After a successful delete-product the product is no longer
    stored nor referenced by its wishlist; the other products are
    stored as before; the other wishlists are as before; and every
    product route that names the deleted product answers 404. *)
Theorem deleted_product_is_gone (db : Db) (actor pid : ObjectId) (p : Product) :
  Products db !! pid = Some p →
  status (deleteProduct db actor pid).2 = 200%nat →
  Products (deleteProduct db actor pid).1 !! pid = None
  ∧ (∀ j, j ≠ pid →
       Products (deleteProduct db actor pid).1 !! j = Products db !! j)
  ∧ (∃ w w', Wishlists db !! wishlist p = Some w
             ∧ Wishlists (deleteProduct db actor pid).1 !! wishlist p = Some w'
             ∧ products w' = filter (λ i, i ≠ pid) (products w))
  ∧ (∀ j, j ≠ wishlist p →
       Wishlists (deleteProduct db actor pid).1 !! j = Wishlists db !! j)
  ∧ (∀ a body txt e now,
       updateProduct (deleteProduct db actor pid).1 a pid body
       = reply (deleteProduct db actor pid).1 404 (Message "Product not found")
       ∧ deleteProduct (deleteProduct db actor pid).1 a pid
         = reply (deleteProduct db actor pid).1 404 (Message "Product not found")
       ∧ addComment (deleteProduct db actor pid).1 a pid txt now
         = reply (deleteProduct db actor pid).1 404 (Message "Product not found")
       ∧ addReaction (deleteProduct db actor pid).1 a pid e now
         = reply (deleteProduct db actor pid).1 404 (Message "Product not found")
       ∧ removeReaction (deleteProduct db actor pid).1 a pid
         = reply (deleteProduct db actor pid).1 404 (Message "Product not found")).
Proof.
  intros Hp Hst.
  apply deleteProduct_deleted in Hst as (p0 & w & Hp0 & Hw & _ & ->).
  assert (p0 = p) as -> by congruence. cbn [reply fst].
  set (db' := setProducts _ _).
  assert (Hgone : Products db' !! pid = None) by apply lookup_delete_eq.
  split_and!.
  - done.
  - intros j Hj. cbn. by rewrite lookup_delete_ne.
  - exists w. eexists. split_and!; [done|cbn; apply lookup_insert_eq|done].
  - intros j Hj. cbn. by rewrite lookup_insert_ne.
  - intros a body txt e now.
    unfold updateProduct, deleteProduct, addComment, addReaction, removeReaction.
    by rewrite Hgone.
Qed.

Lemma deleted_product_is_gone_witness :
  Products (deleteProduct sharedDb 1%N 20%N).1 !! 20%N = None.
Proof.
  by destruct (deleted_product_is_gone sharedDb 1%N 20%N tent eq_refl eq_refl)
    as (Hgone & _).
Defined.

(** ** Creating and listing wishlists *)

(** X13.  A successful create-wishlist stores, under the fresh
    identifier, a wishlist owned by the actor, without collaborators or
    products, with total 0, with the trimmed title, with the visibility
    that Mongoose's cast to [Boolean] makes of [isPublic || false], and
    carrying an invite code exactly when the [isPublic] of the body is
    truthy.  A missing or blank title, or an [isPublic] that the cast
    refuses, is answered 500 and nothing is stored.  The creator, being
    registered, can then read the new wishlist, while every other user
    is answered 403 unless it is public. *)
Theorem create_wishlist_outcomes
    (db : Db) (actor newId : ObjectId) (rnd : JsString) (body : WishlistBody) :
  (status (createWishlist db actor newId rnd body).2 = 201%nat →
   ∃ w, createWishlist db actor newId rnd body
        = reply (saveWishlist db newId w) 201 (WishlistDoc w)
        ∧ Wishlists db !! newId = None
        ∧ owner w = actor ∧ collaborators w = [] ∧ products w = []
        ∧ totalValue w = 0%float
        ∧ castBoolean (isPublicOrFalse body) = Some (isPublic w)
        ∧ inviteCode w = (if asksPublic body then Some rnd else None)
        ∧ (∃ t, body_title body = Some t ∧ title w = trim t ∧ title w ≠ [])
        ∧ (actor ∈ Users db →
           getWishlist (saveWishlist db newId w) actor newId
           = reply (saveWishlist db newId w) 200 (WishlistDoc w)
           ∧ (isPublic w ≠ Some true → ∀ a, a ≠ actor →
              getWishlist (saveWishlist db newId w) a newId
              = reply (saveWishlist db newId w) 403 (Message "Access denied"))))
  ∧ (body_title body = None ∨ (∃ t, body_title body = Some t ∧ trim t = []) →
     createWishlist db actor newId rnd body = serverError db)
  ∧ (castBoolean (isPublicOrFalse body) = None →
     createWishlist db actor newId rnd body = serverError db).
Proof.
  split_and!.
  - intros Hst.
    destruct (createWishlist_created _ _ _ _ _ Hst)
      as (t & d & flag & Ht & _ & Hflag & Hfresh & _ & Heq).
    cbn zeta in Heq. eexists. split; [exact Heq|]. cbn.
    split_and!; try done.
    + unfold castRequired, castString in Ht.
      destruct (body_title body) as [raw|]; [|done]. exists raw.
      repeat case_match; simplify_eq; split_and!; try done;
        by destruct (trim raw).
    + intros Hreg. unfold getWishlist, hasAccessPopulated, populatedId.
      cbn [saveWishlist setWishlists Wishlists Users].
      rewrite lookup_insert_eq. cbn [owner]. rewrite decide_True by done. cbn.
      rewrite bool_decide_eq_true_2 by done. split; [done|].
      intros Hpriv a Ha. rewrite bool_decide_eq_false_2 by done.
      unfold publicFlag. cbn. by destruct flag as [[]|].
  - intros Hblank. unfold createWishlist.
    assert (castRequired 100 (body_title body) = None) as ->; [|done].
    unfold castRequired, castString.
    destruct Hblank as [->|(t & -> & Ht)]; [done|]. cbn zeta. by rewrite Ht.
  - intros Hcast. unfold createWishlist. rewrite Hcast. by repeat case_match.
Qed.

Lemma create_wishlist_outcomes_witness :
  createWishlist (initial {[1%N]}) 1%N 10%N (js "r")
    (mkWishlistBody (Some (js "  ")) None (Some (JBool true)) None)
  = serverError (initial {[1%N]})
  ∧ createWishlist (initial {[1%N]}) 1%N 10%N (js "r")
      (mkWishlistBody (Some (js "Party")) None (Some (JString (js "maybe"))) None)
    = serverError (initial {[1%N]}).
Proof.
  split.
  - destruct (create_wishlist_outcomes (initial {[1%N]}) 1%N 10%N (js "r")
                (mkWishlistBody (Some (js "  ")) None (Some (JBool true)) None))
      as (_ & Hblank & _).
    apply Hblank. right. by exists (js "  ").
  - destruct (create_wishlist_outcomes (initial {[1%N]}) 1%N 10%N (js "r")
                (mkWishlistBody (Some (js "Party")) None
                   (Some (JString (js "maybe"))) None))
      as (_ & _ & Hcast).
    by apply Hcast.
Defined.

(** X14.  The list of wishlists answers 200 with exactly the stored
    wishlists that the actor owns or collaborates on; a public wishlist
    of somebody else is not listed. *)
Theorem listed_wishlists_are_own_or_joined (db : Db) (actor : ObjectId) :
  ∃ ws, getWishlists db actor = reply db 200 (WishlistDocs ws)
        ∧ ∀ w, w ∈ ws
               ↔ ∃ id, Wishlists db !! id = Some w
                       ∧ (owner w = actor ∨ isCollaborator w actor).
Proof.
  eexists. split; [reflexivity|]. intros w.
  rewrite list_elem_of_fmap. split.
  - intros ([id v] & -> & Hin). apply elem_of_map_to_list in Hin.
    apply map_lookup_filter_Some in Hin as [Hv Hm]. cbn in Hm.
    exists id. split; [done|]. destruct Hm as [?|Hm]; [by left|right].
    apply list_elem_of_fmap in Hm as (c & -> & Hc). by exists c.
  - intros (id & Hv & Hm). exists (id, w). split; [done|].
    apply elem_of_map_to_list, map_lookup_filter_Some. split; [done|]. cbn.
    destruct Hm as [?|(c & Hc & <-)]; [by left|right].
    by apply list_elem_of_fmap_2.
Qed.

(** ** Writing products *)

(** X15.  Adding a product passes the authorization check exactly for
    the owner of the wishlist and for its collaborators with role
    editor or admin; updating a product, exactly for those and for the
    user who added the product.  Being able to view is not enough: on a
    public wishlist a viewer or a stranger is answered 403. *)
Theorem product_write_access
    (db : Db) (actor wid : ObjectId) (w : Wishlist) :
  Wishlists db !! wid = Some w →
  (∀ newId body,
     body_wishlistId body = Some wid →
     (status (addProduct db actor newId body).2 ≠ 403%nat
      ↔ owner w = actor ∨ collaboratesAs editor w actor
        ∨ collaboratesAs admin w actor))
  ∧ (∀ pid p body,
       Products db !! pid = Some p → wishlist p = wid →
       (status (updateProduct db actor pid body).2 ≠ 403%nat
        ↔ owner w = actor ∨ addedBy p = actor
          ∨ collaboratesAs editor w actor ∨ collaboratesAs admin w actor)).
Proof.
  intros Hw. split.
  - intros newId body Hb. rewrite <- canAdd_true. unfold addProduct.
    rewrite Hb. cbn [mbind option_bind]. rewrite Hw. cbn.
    destruct (canAdd w actor); cbn; [|by split].
    split; [done|]. intros _.
    destruct (castRequired 200 (body_name body)); [|done].
    destruct (validPrice (body_price body)); cbn; [|done].
    by case_bool_decide.
  - intros pid p body Hp <-. rewrite <- canEdit_true. unfold updateProduct.
    rewrite Hp, Hw.
    destruct (canEdit w p actor); cbn; [|by split].
    split; [done|]. intros _.
    by destruct (Product_findByIdAndUpdate _ _ _) as [[??]|].
Qed.

Lemma product_write_access_witness :
  status (addProduct partyDb 2%N 30%N
            (mkProductBody (Some (js "Cake")) None (Some 10%N))).2 = 403%nat.
Proof.
  destruct (product_write_access partyDb 2%N 10%N partyList eq_refl) as [Hadd _].
  destruct (Hadd 30%N (mkProductBody (Some (js "Cake")) None (Some 10%N)) eq_refl)
    as [Hto _].
  destruct (decide (status (addProduct partyDb 2%N 30%N
                      (mkProductBody (Some (js "Cake")) None (Some 10%N))).2 = 403%nat))
    as [Heq|Hne]; [done|].
  destruct (Hto Hne) as [H|[(c & Hc & _)|(c & Hc & _)]]; [done|..];
    cbn in Hc; by apply elem_of_nil in Hc.
Defined.

(** X16.  Add-product answers 404 when the body names no wishlist or an
    unknown one.  For an actor who may add, a missing name, a name that
    is blank once trimmed, a price that fails [value >= 0] or an
    identifier already in use is answered 500 and nothing is stored.  A
    successful request stores the product under the fresh identifier
    with the trimmed name, the price of the body, the actor as its
    creator and no comments or reactions, leaves every other product as
    it was, and appends the identifier to the references of the
    wishlist. *)
Theorem add_product_outcomes
    (db : Db) (actor newId : ObjectId) (body : ProductBody) :
  ((body_wishlistId body = None
    ∨ ∃ wid, body_wishlistId body = Some wid ∧ Wishlists db !! wid = None) →
   addProduct db actor newId body = reply db 404 (Message "Wishlist not found"))
  ∧ (∀ wid w,
       body_wishlistId body = Some wid → Wishlists db !! wid = Some w →
       canAdd w actor = true →
       (body_name body = None
        ∨ (∃ n, body_name body = Some n ∧ trim n = [])
        ∨ (∃ x, body_price body = Some x ∧ PrimFloat.leb 0 x = false)
        ∨ is_Some (Products db !! newId)) →
       addProduct db actor newId body = serverError db)
  ∧ (status (addProduct db actor newId body).2 = 201%nat →
     ∃ wid w n,
       body_wishlistId body = Some wid ∧ Wishlists db !! wid = Some w
       ∧ body_name body = Some n
       ∧ Products (addProduct db actor newId body).1 !! newId
         = Some (mkProduct (trim n) (body_price body) wid actor [] [])
       ∧ (∀ j, j ≠ newId →
            Products (addProduct db actor newId body).1 !! j = Products db !! j)
       ∧ (∃ w', Wishlists (addProduct db actor newId body).1 !! wid = Some w'
                ∧ products w' = (products w ++ [newId])%list)).
Proof.
  split_and!.
  - intros [Hb|(wid & Hb & Hw)]; unfold addProduct; rewrite Hb;
      cbn [mbind option_bind]; [done|]. by rewrite Hw.
  - intros wid w Hb Hw Hcan Hbad. unfold addProduct.
    rewrite Hb. cbn [mbind option_bind]. rewrite Hw. cbn. rewrite Hcan. cbn.
    destruct (castRequired 200 (body_name body)) as [n|] eqn:Hn; [|done].
    destruct (validPrice (body_price body)) eqn:Hprice; cbn; [|done].
    case_bool_decide as Hused; [done|]. exfalso.
    destruct Hbad as [Hnone|[(raw & Hraw & Hblank)|[(x & Hx & Hneg)|Hin]]].
    + by rewrite Hnone in Hn.
    + rewrite Hraw in Hn. unfold castRequired, castString in Hn. cbn zeta in Hn.
      by rewrite Hblank in Hn.
    + rewrite Hx in Hprice. cbn in Hprice. congruence.
    + done.
  - intros Hst. apply addProduct_created in Hst
      as (wid & w & n & Hb & Hw & _ & Hn & Hfresh & Heq).
    assert (∃ raw, body_name body = Some raw ∧ n = trim raw) as (raw & Hraw & ->).
    { unfold castRequired, castString in Hn.
      destruct (body_name body) as [raw|]; [|done]. exists raw.
      by repeat case_match; simplify_eq. }
    exists wid, w, raw. rewrite Heq. cbn.
    split_and!; [done..| | |].
    + apply lookup_insert_eq.
    + intros j Hj. by rewrite lookup_insert_ne.
    + eexists. split; [apply lookup_insert_eq|done].
Qed.

Lemma add_product_outcomes_witness :
  addProduct sharedDb 2%N 30%N
    (mkProductBody (Some (js "Rope")) (Some (-5)%float) (Some 10%N))
  = serverError sharedDb
  ∧ addProduct sharedDb 2%N 30%N
      (mkProductBody (Some [160%N; 160%N]) (Some 5%float) (Some 10%N))
    = serverError sharedDb.
Proof.
  split.
  - destruct (add_product_outcomes sharedDb 2%N 30%N
                (mkProductBody (Some (js "Rope")) (Some (-5)%float) (Some 10%N)))
      as (_ & Hbad & _).
    apply (Hbad 10%N sharedList); [reflexivity..|].
    right; right; left. by exists (-5)%float.
  - destruct (add_product_outcomes sharedDb 2%N 30%N
                (mkProductBody (Some [160%N; 160%N]) (Some 5%float) (Some 10%N)))
      as (_ & Hbad & _).
    apply (Hbad 10%N sharedList); [reflexivity..|].
    right; left. by exists [160%N; 160%N].
Defined.

(** ** Comments and updates of a product *)










(** X20.  For an actor with view access the product list of a wishlist
    answers 200 with exactly the stored products whose [wishlist] field
    names it, whether or not the wishlist references them. *)
Theorem listed_products_are_those_of_the_wishlist
    (db : Db) (actor id : ObjectId) (w : Wishlist) :
  Wishlists db !! id = Some w →
  canView w actor →
  ∃ ps, getProducts db actor id = reply db 200 (ProductDocs ps)
        ∧ ∀ p, p ∈ ps ↔ ∃ pid, Products db !! pid = Some p ∧ wishlist p = id.
Proof.
  intros Hw Hview%hasAccess_canView.
  eexists. split; [unfold getProducts; by rewrite Hw, Hview|].
  intros p. unfold Product_find. rewrite list_elem_of_fmap. split.
  - intros ([pid q] & -> & Hin). apply elem_of_map_to_list in Hin.
    apply map_lookup_filter_Some in Hin as [Hq Hm]. by exists pid.
  - intros (pid & Hp & Hm). exists (pid, p). split; [done|].
    by apply elem_of_map_to_list, map_lookup_filter_Some.
Qed.

Lemma listed_products_are_those_of_the_wishlist_witness :
  ∃ ps, getProducts sharedDb 2%N 10%N = reply sharedDb 200 (ProductDocs ps)
        ∧ ∀ p, p ∈ ps ↔ ∃ pid, Products sharedDb !! pid = Some p ∧ wishlist p = 10%N.
Proof.
  apply (listed_products_are_those_of_the_wishlist sharedDb 2%N 10%N sharedList);
    [reflexivity|].
  right; left. exists (mkCollaborator 2%N editor 7%N). split; [left|done].
Defined.

(** ** The public identifier of a stored image *)

Lemma skipDigits_app ver rest :
  allDigits ver = true → skipDigits (ver ++ slash :: rest) = slash :: rest.
Proof.
  induction ver as [|d ver IH]; [done|]. cbn.
  intros [Hd Hver]%andb_true_iff. rewrite Hd. by apply IH.
Qed.

Lemma beforeLastDot_noDot s : noDot s = true → beforeLastDot s = None.
Proof.
  induction s as [|a s IH]; [done|]. cbn.
  intros [Ha Hs]%andb_true_iff. rewrite (IH Hs).
  apply negb_true_iff in Ha. rewrite Ha. by destruct (isLineTerminator a).
Qed.

Lemma beforeLastDot_app t ext :
  oneLine t = true → noDot ext = true →
  beforeLastDot (t ++ dot :: ext) = Some t.
Proof.
  intros Ht Hext. induction t as [|a t IH].
  - cbn. by rewrite (beforeLastDot_noDot ext Hext).
  - cbn in Ht. apply andb_true_iff in Ht as [Ha Ht].
    apply negb_true_iff in Ha. cbn. by rewrite Ha, (IH Ht).
Qed.

Lemma matchHere_other c s : N.eqb c slash = false → matchHere (c :: s) = None.
Proof. intros Hne. destruct s as [|c2 [|d rest]]; cbn; by rewrite ?Hne. Qed.

Lemma matchHere_slash_other c b s :
  N.eqb b letterV = false → matchHere (c :: b :: s) = None.
Proof.
  intros Hne. destruct s as [|d rest]; cbn; [done|].
  by rewrite Hne, andb_false_r.
Qed.

Lemma noSlashV_tail a pre : noSlashV (a :: pre) = true → noSlashV pre = true.
Proof.
  destruct pre as [|b pre]; [done|].
  change (noSlashV (a :: b :: pre))
    with (negb (N.eqb a slash && N.eqb b letterV) && noSlashV (b :: pre)).
  by intros [_ H]%andb_true_iff.
Qed.

Lemma firstMatch_cons a s :
  firstMatch (a :: s)
  = match matchHere (a :: s) with
    | Some group => Some group
    | None => firstMatch s
    end.
Proof. done. Qed.

Lemma firstMatch_skip pre s :
  noSlashV pre = true →
  firstMatch (pre ++ slash :: s) = firstMatch (slash :: s).
Proof.
  induction pre as [|a pre IH]; [done|]. intros Hpre.
  assert (Hhere : matchHere ((a :: pre) ++ slash :: s) = None).
  { cbn [app]. destruct (N.eqb a slash) eqn:Ha; [|by apply matchHere_other].
    destruct pre as [|b pre]; [by apply matchHere_slash_other|].
    cbn [app]. apply matchHere_slash_other.
    change (noSlashV (a :: b :: pre))
      with (negb (N.eqb a slash && N.eqb b letterV) && noSlashV (b :: pre)) in Hpre.
    apply andb_true_iff in Hpre as [Hpre _]. rewrite Ha in Hpre.
    by destruct (N.eqb b letterV). }
  change ((a :: pre) ++ slash :: s) with (a :: (pre ++ slash :: s)) in *.
  rewrite firstMatch_cons, Hhere. apply IH. by apply (noSlashV_tail a).
Qed.

(** X21.  [extractPublicId] undoes the way Cloudinary lays out a
    delivery URL.  Take a URL made of an address without ["/v"], then
    ["/v"], a version of one or more digits, ["/"], a public identifier
    that is not empty and has no line terminator (slashes and dots are
    allowed), ["."], and an extension without dot.  The function returns
    the public identifier. *)
Theorem extractPublicId_round_trip (pre ver pid ext : JsString) :
  noSlashV pre = true →
  ver ≠ [] → allDigits ver = true →
  pid ≠ [] → oneLine pid = true →
  noDot ext = true →
  extractPublicId (pre ++ [slash; letterV] ++ ver ++ [slash] ++ pid ++ [dot] ++ ext)
  = Some pid.
Proof.
  intros Hpre Hver Hdigits Hpid Hline Hext.
  unfold extractPublicId.
  assert (truthy (pre ++ [slash; letterV] ++ ver ++ [slash] ++ pid ++ [dot] ++ ext)
          = true) as ->.
  { by destruct pre. }
  cbn [app]. rewrite firstMatch_skip by done.
  destruct ver as [|d ver]; [done|]. destruct pid as [|a pid]; [done|].
  cbn in Hdigits, Hline.
  apply andb_true_iff in Hdigits as [Hd Hdigits].
  apply andb_true_iff in Hline as [Ha Hline]. apply negb_true_iff in Ha.
  cbn [app]. rewrite firstMatch_cons.
  assert (matchHere (slash :: letterV :: d :: ver ++ slash :: a :: pid ++ dot :: ext)
          = Some (a :: pid)) as ->; [|done].
  cbn [matchHere]. rewrite Hd. cbn [N.eqb andb].
  change (N.eqb slash slash && N.eqb letterV letterV && true) with true.
  cbn iota. rewrite skipDigits_app by done.
  change (N.eqb slash slash) with true. cbn iota.
  unfold captureGroup. rewrite Ha. by rewrite beforeLastDot_app.
Qed.

Lemma extractPublicId_round_trip_witness :
  extractPublicId
    (js "https://res.cloudinary.com/demo/image/upload" ++ [slash; letterV]
     ++ js "1712345678" ++ [slash] ++ js "wishlist-app/products/product_17_k2.x"
     ++ [dot] ++ js "jpg")
  = Some (js "wishlist-app/products/product_17_k2.x").
Proof. by apply extractPublicId_round_trip. Defined.

Lemma beforeLastDot_Some s t :
  beforeLastDot s = Some t →
  oneLine t = true ∧ ∃ rest, s = t ++ dot :: rest.
Proof.
  revert t. induction s as [|a s IH]; intros t; [done|]. cbn.
  destruct (isLineTerminator a) eqn:Ha; [done|].
  destruct (beforeLastDot s) as [t'|] eqn:Hs.
  - intros [= <-]. destruct (IH t' eq_refl) as (Hline & rest & ->).
    cbn. rewrite Ha. split; [done|]. by exists rest.
  - destruct (N.eqb_spec a dot) as [->|Hne]; [|done].
    intros [= <-]. split; [done|]. by exists s.
Qed.

Lemma skipDigits_split s :
  ∃ digits, s = digits ++ skipDigits s ∧ allDigits digits = true.
Proof.
  induction s as [|a s (digits & Hs & Hd)]; [by exists []|]. cbn.
  destruct (isDigit a) eqn:Ha; [|by exists []].
  exists (a :: digits). split; [cbn; by rewrite <- Hs|].
  change (isDigit a && allDigits digits = true). by rewrite Ha.
Qed.

Lemma matchHere_Some s group :
  matchHere s = Some group →
  group ≠ [] ∧ oneLine group = true
  ∧ ∃ ver rest,
      s = [slash; letterV] ++ ver ++ [slash] ++ group ++ [dot] ++ rest
      ∧ ver ≠ [] ∧ allDigits ver = true.
Proof.
  destruct s as [|c1 [|c2 [|d s]]]; [done..|]. cbn [matchHere].
  destruct (N.eqb_spec c1 slash) as [->|Hc1]; [|done].
  destruct (N.eqb_spec c2 letterV) as [->|Hc2]; [|done].
  destruct (isDigit d) eqn:Hd; [|done]. cbn [andb].
  destruct (skipDigits_split s) as (digits & Hs & Hdigits).
  destruct (skipDigits s) as [|c tail] eqn:Hskip; [done|].
  destruct (N.eqb_spec c slash) as [->|Hc]; [|done].
  unfold captureGroup. destruct tail as [|g tail]; [done|].
  destruct (isLineTerminator g) eqn:Hg; [done|].
  destruct (beforeLastDot tail) as [t|] eqn:Ht; [|done].
  intros [= <-]. apply beforeLastDot_Some in Ht as (Hline & rest & ->).
  split_and!; [done|cbn; by rewrite Hg|].
  exists (d :: digits), rest.
  split_and!; [by rewrite Hs|done|].
  change (isDigit d && allDigits digits = true). by rewrite Hd.
Qed.

Lemma firstMatch_Some s group :
  firstMatch s = Some group →
  group ≠ [] ∧ oneLine group = true
  ∧ ∃ pre ver rest,
      s = pre ++ [slash; letterV] ++ ver ++ [slash] ++ group ++ [dot] ++ rest
      ∧ ver ≠ [] ∧ allDigits ver = true.
Proof.
  induction s as [|a s IH]; [done|].
  rewrite firstMatch_cons.
  destruct (matchHere (a :: s)) as [g|] eqn:Hhere.
  - intros [= <-].
    apply matchHere_Some in Hhere as (Hne & Hline & ver & rest & Heq & Hv & Hd).
    split_and!; [done..|]. by exists [], ver, rest.
  - intros (Hne & Hline & pre & ver & rest & -> & Hv & Hd)%IH.
    split_and!; [done..|]. by exists (a :: pre), ver, rest.
Qed.

Lemma noSlashV_app pre s : noSlashV (pre ++ slash :: letterV :: s) = false.
Proof.
  induction pre as [|a pre IH]; [done|].
  destruct (noSlashV ((a :: pre) ++ slash :: letterV :: s)) eqn:H; [|done].
  cbn [app] in H. apply noSlashV_tail in H. congruence.
Qed.

Lemma noDot_app s rest : noDot (s ++ dot :: rest) = false.
Proof. unfold noDot. rewrite forallb_app. cbn. apply andb_false_r. Qed.

Lemma noDot_app_r s t : noDot (s ++ t) = true → noDot t = true.
Proof. unfold noDot. rewrite forallb_app. by intros [_ H]%andb_true_iff. Qed.

(** X22.  What [extractPublicId] returns is a piece of the URL: the
    result is not empty, has no line terminator, and the URL reads some
    text, ["/v"], one or more digits, ["/"], the result, ["."], some
    text. *)
Theorem extractPublicId_sound (url pid : JsString) :
  extractPublicId url = Some pid →
  pid ≠ [] ∧ oneLine pid = true
  ∧ ∃ pre ver rest,
      url = pre ++ [slash; letterV] ++ ver ++ [slash] ++ pid ++ [dot] ++ rest
      ∧ ver ≠ [] ∧ allDigits ver = true.
Proof.
  unfold extractPublicId. destruct (truthy url); [|done]. apply firstMatch_Some.
Qed.

Lemma extractPublicId_sound_witness :
  ∃ pre ver rest,
    js "http://h/v7/a/b.c.png"
    = pre ++ [slash; letterV] ++ ver ++ [slash] ++ js "a/b.c" ++ [dot] ++ rest
    ∧ ver ≠ [] ∧ allDigits ver = true.
Proof.
  by destruct (extractPublicId_sound (js "http://h/v7/a/b.c.png") (js "a/b.c")
                 eq_refl) as (_ & _ & H).
Defined.

(** X23.  [extractPublicId] returns [null] for the empty URL, for a URL
    that contains no ["/v"] and for a URL that contains no dot: an image
    address without version segment or without extension yields no
    public identifier. *)
Theorem extractPublicId_rejects (url : JsString) :
  url = [] ∨ noSlashV url = true ∨ noDot url = true →
  extractPublicId url = None.
Proof.
  intros Hbad. unfold extractPublicId.
  destruct (truthy url); [|done].
  destruct (firstMatch url) as [pid|] eqn:Hpid; [exfalso|done].
  apply firstMatch_Some in Hpid as (_ & _ & pre & ver & rest & -> & _ & _).
  destruct Hbad as [Hempty|[Hv|Hdot]].
  - by destruct pre.
  - cbn [app] in Hv. by rewrite noSlashV_app in Hv.
  - apply noDot_app_r in Hdot. cbn [app] in Hdot.
    change (slash :: letterV :: ver ++ slash :: pid ++ dot :: rest)
      with ([slash; letterV] ++ ver ++ [slash] ++ pid ++ dot :: rest) in Hdot.
    do 3 apply noDot_app_r in Hdot. by rewrite noDot_app in Hdot.
Qed.

Lemma extractPublicId_rejects_witness :
  extractPublicId (js "https://example.org/pictures/cat.png") = None.
Proof. apply extractPublicId_rejects. right; left. reflexivity. Defined.

(** ** Joining a private wishlist *)

(** X24.  Join looks at the invite code only, never at the visibility.
    A user who is no part of a private wishlist, and so is answered 403
    when listing its products, joins with the code the wishlist still
    carries, is answered 200, and from then on lists its products and
    passes the check of add-product. *)
Theorem private_wishlist_is_joinable
    (db : Db) (actor : ObjectId) (code : JsString) (now : Time)
    (id : ObjectId) (w : Wishlist) :
  uniqueInviteCodes (Wishlists db) →
  Wishlists db !! id = Some w →
  isPublic w ≠ Some true → inviteCode w = Some code →
  owner w ≠ actor → ¬ isCollaborator w actor →
  getProducts db actor id = reply db 403 (Message "Access denied")
  ∧ status (join db actor code now).2 = 200%nat
  ∧ status (getProducts (join db actor code now).1 actor id).2 = 200%nat
  ∧ ∀ newId body,
      body_wishlistId body = Some id →
      status (addProduct (join db actor code now).1 actor newId body).2 ≠ 403%nat.
Proof.
  intros Hu Hw Hpriv Hc Ho Hn.
  assert (Hout := not_member w actor Ho Hn).
  split.
  { unfold getProducts, hasAccess. rewrite Hw.
    apply orb_false_iff in Hout as [-> ->].
    assert (publicFlag w = false) as ->; [|done].
    apply not_true_is_false. by rewrite publicFlag_true. }
  rewrite (join_resolves db actor code now id w Hu Hw Hc), Hout.
  cbn [reply fst snd status]. split; [done|].
  set (w' := pushCollaborator w actor now).
  assert (Hw' : Wishlists (saveWishlist db id w') !! id = Some w').
  { cbn. apply lookup_insert_eq. }
  assert (Hin : collaboratesAs editor w' actor).
  { exists (mkCollaborator actor editor now). split_and!; [|done..].
    cbn. apply elem_of_app. right. left. }
  split.
  - unfold getProducts. rewrite Hw'.
    assert (hasAccess w' actor = true) as ->; [|done].
    apply hasAccess_canView. right; left.
    destruct Hin as (c & ? & ? & _). by exists c.
  - intros newId body Hb. unfold addProduct. rewrite Hb.
    cbn [mbind option_bind]. rewrite Hw'. cbn [fmap option_fmap option_map].
    rewrite (proj2 (canAdd_true w' actor)) by (right; by left). cbn.
    destruct (castRequired 200 (body_name body)); [|done].
    destruct (validPrice (body_price body)); cbn; [|done].
    by case_bool_decide.
Qed.

Lemma private_wishlist_is_joinable_witness :
  status (join (run (initial {[1%N]}) flipTrace) 2%N (js "k3x9") 4%N).2 = 200%nat.
Proof.
  assert (Hu : uniqueInviteCodes (Wishlists (run (initial {[1%N]}) flipTrace))).
  { apply (run_wellFormed {[1%N]} flipTrace).
    unfold authenticated, flipTrace. repeat constructor; cbn; set_solver. }
  destruct (private_wishlist_is_joinable (run (initial {[1%N]}) flipTrace)
              2%N (js "k3x9") 4%N 10%N
              (mkWishlist (js "Party") None 1%N [] [] (Some false) (Some (js "k3x9")) []
                 0%float) Hu)
    as (_ & Hjoin & _); try done.
  intros (c & Hc & _). cbn in Hc. by apply elem_of_nil in Hc.
Defined.

(** ** Deleting a stored image *)

(** X25.  The image-deletion route calls the storage service only with
    an identifier that [extractPublicId] read off the URL of the
    request, hence one that is not empty and stands in the URL between
    a version segment and a dot; with a missing, empty or unreadable URL
    the answer is 400 and the service is not called.  The answer is 200
    exactly when the service was called and resolved to [ok]. *)
Theorem delete_image_calls_storage_with_parsed_id
    (imageUrl : option JsString) (destroy : JsString → Destroyed) :
  (∀ pid, (deleteImageRoute imageUrl destroy).2 = Some pid →
     pid ≠ []
     ∧ ∃ url pre ver rest,
         imageUrl = Some url
         ∧ url = pre ++ [slash; letterV] ++ ver ++ [slash] ++ pid ++ [dot] ++ rest
         ∧ ver ≠ [] ∧ allDigits ver = true)
  ∧ (imageUrl = None ∨ imageUrl = Some []
     ∨ (∃ url, imageUrl = Some url ∧ extractPublicId url = None) →
     status (deleteImageRoute imageUrl destroy).1 = 400%nat
     ∧ (deleteImageRoute imageUrl destroy).2 = None)
  ∧ (status (deleteImageRoute imageUrl destroy).1 = 200%nat
     ↔ ∃ pid, (deleteImageRoute imageUrl destroy).2 = Some pid
              ∧ destroy pid = DestroyResult (js "ok")).
Proof.
  unfold deleteImageRoute. split_and!.
  - intros pid. destruct imageUrl as [url|]; [|done].
    destruct (truthy url); [|done]. cbn [negb].
    destruct (extractPublicId url) as [publicId|] eqn:Hid; [|done].
    destruct (truthy publicId) eqn:Htruthy; cbn [negb]; [|done].
    assert (firstMatch url = Some publicId) as Hmatch.
    { unfold extractPublicId in Hid. by destruct (truthy url). }
    apply firstMatch_Some in Hmatch as (Hne & _ & pre & ver & rest & Hurl & Hver).
    intros Hcalled.
    assert (pid = publicId) as ->.
    { destruct (destroy publicId) as [|result]; [cbn in Hcalled; congruence|].
      destruct (bool_decide (result = js "ok")); cbn in Hcalled; congruence. }
    split; [done|]. by exists url, pre, ver, rest.
  - intros [->|[->|(url & -> & Hnone)]]; [done..|].
    rewrite Hnone. by destruct (truthy url).
  - destruct imageUrl as [url|]; [|by split; [|intros (? & ? & _)]].
    destruct (truthy url); cbn [negb]; [|by split; [|intros (? & ? & _)]].
    destruct (extractPublicId url) as [publicId|];
      [|by split; [|intros (? & ? & _)]].
    destruct (truthy publicId); cbn [negb]; [|by split; [|intros (? & ? & _)]].
    destruct (destroy publicId) as [|result] eqn:Hd.
    + split; [done|]. intros (pid & [= <-] & Hok). congruence.
    + case_bool_decide as Hres.
      * subst result. split; [|done]. intros _. by exists publicId.
      * split; [done|]. intros (pid & [= <-] & Hok). congruence.
Qed.

Lemma delete_image_calls_storage_with_parsed_id_witness :
  status (deleteImageRoute (Some (js "http://h/v7/a/b.c.png"))
            (λ pid, if bool_decide (pid = js "a/b.c") then DestroyResult (js "ok")
                    else DestroyResult (js "not found"))).1 = 200%nat
  ∧ status (deleteImageRoute (Some (js "https://example.org/pictures/cat.png"))
              (λ _, DestroyResult (js "ok"))).1 = 400%nat.
Proof.
  split.
  - apply delete_image_calls_storage_with_parsed_id. by exists (js "a/b.c").
  - apply delete_image_calls_storage_with_parsed_id.
    right; right. by eexists.
Defined.
